(** * DataAnalystAgent: a shallow embedding of [agent.py]

    The agent of [agent.py] keeps three optional payloads ([data],
    [text_content], [image_content]) and a history list.  Its four methods
    are embedded as pure functions that take the agent and return the
    method's result together with the agent after the call.

    Conventions of the embedding:
    - a Python [str] is a [string]; one [ascii] stands for one Python
      character, so the texts covered are those with code points below 256;
    - a call that may raise returns an [Exc]: [Ok v], or [Raise m] where [m]
      is [str(e)] of the exception;
    - the parsers of pandas, python-docx, PyPDF2, the file system and the
      Together client are not code of the repository: they are the fields of
      an [Env] that every method receives. *)

From Stdlib Require Import Bool Arith ZArith Lia List Ascii String.
From Stdlib.Strings Require Import Byte.
From Stdlib Require Import DecimalString.
Import ListNotations.

Local Open Scope list_scope.
Local Open Scope string_scope.

Set Implicit Arguments.

(** ** Python values used by the agent *)

Module Py.

(** A computation that either returns or raises [Exception(msg)]. *)
Inductive Exc (A : Type) : Type :=
| Ok (a : A)
| Raise (msg : string).

Arguments Ok {A} a.
Arguments Raise {A} msg.

Definition bind {A B} (m : Exc A) (k : A -> Exc B) : Exc B :=
  match m with
  | Ok a => k a
  | Raise e => Raise e
  end.

(** The line feed, ["\n"] in the source. *)
Definition nl : string := String "010"%char EmptyString.

(** Truth value of a [str]: every string but the empty one. *)
Definition truthy (s : string) : bool :=
  match s with
  | EmptyString => false
  | String _ _ => true
  end.

(** [s[:n]]. *)
Definition slice_to (n : nat) (s : string) : string := substring 0 n s.

(** [s[n:]]. *)
Fixpoint slice_from (n : nat) (s : string) : string :=
  match n, s with
  | O, _ => s
  | S n', EmptyString => EmptyString
  | S n', String _ s' => slice_from n' s'
  end.

(** [str.isspace] on one character, for code points below 256: the
    controls 9..13 and 28..31, the space, NEL and the no-break space. *)
Definition isspace (c : ascii) : bool :=
  let n := nat_of_ascii c in
  (((9 <=? n) && (n <=? 13)) || ((28 <=? n) && (n <=? 32))
   || (n =? 133) || (n =? 160))%nat.

(** [s.split()] with no separator: the maximal runs of characters that are
    not whitespace.  [tok] is the run being read. *)
Fixpoint split_from (tok : string) (s : string) : list string :=
  match s with
  | EmptyString => if truthy tok then [tok] else []
  | String c s' =>
      if isspace c
      then (if truthy tok then tok :: split_from EmptyString s'
            else split_from EmptyString s')
      else split_from (tok ++ String c EmptyString) s'
  end.

Definition split (s : string) : list string := split_from EmptyString s.

(** [str.lower] on one character, for code points below 256: the ASCII
    capitals and the Latin-1 capitals 192..222 (215, the multiplication
    sign, is not a letter) move up by 32. *)
Definition lower_char (c : ascii) : ascii :=
  let n := nat_of_ascii c in
  if (((65 <=? n) && (n <=? 90))
      || ((192 <=? n) && (n <=? 222) && negb (n =? 215)))%nat
  then ascii_of_nat (n + 32)
  else c.

Fixpoint lower (s : string) : string :=
  match s with
  | EmptyString => EmptyString
  | String c s' => String (lower_char c) (lower s')
  end.

(** [sep.join(parts)]. *)
Definition join (sep : string) (parts : list string) : string :=
  String.concat sep parts.

(** [str(n)] for a non-negative [int]. *)
Definition str_of_nat (n : nat) : string :=
  NilEmpty.string_of_uint (Nat.to_uint n).

(** [str((r, c))], the text of a pair of ints. *)
Definition str_of_shape (shape : nat * nat) : string :=
  "(" ++ str_of_nat (fst shape) ++ ", " ++ str_of_nat (snd shape) ++ ")".

(** [x in xs] for a list of strings. *)
Definition str_in (x : string) (xs : list string) : bool :=
  existsb (String.eqb x) xs.

(** [p.rfind(c)]: the index of the last [c] in [p], or [-1]. *)
Fixpoint rfind_from (c : ascii) (p : string) (i : Z) (last : Z) : Z :=
  match p with
  | EmptyString => last
  | String d p' =>
      rfind_from c p' (i + 1) (if Ascii.eqb d c then i else last)
  end.

Definition rfind (c : ascii) (p : string) : Z := rfind_from c p 0 (-1).

(** The loop of [genericpath._splitext] that skips the leading dots of the
    file name: [true] when some character of [p] in
    [filenameIndex .. filenameIndex + n - 1] is not a dot. *)
Fixpoint has_non_dot (p : string) (filenameIndex : nat) (n : nat) : bool :=
  match n with
  | O => false
  | S n' =>
      match String.get filenameIndex p with
      | Some "."%char => has_non_dot p (S filenameIndex) n'
      | _ => true
      end
  end.

(** [os.path.splitext] of [posixpath]: separator ["/"], no alternative
    separator, extension separator ["."]. *)
Definition splitext (p : string) : string * string :=
  let sepIndex := rfind "/"%char p in
  let dotIndex := rfind "."%char p in
  if (dotIndex >? sepIndex)%Z
     && has_non_dot p (Z.to_nat (sepIndex + 1))
          (Z.to_nat (dotIndex - (sepIndex + 1)))
  then (slice_to (Z.to_nat dotIndex) p, slice_from (Z.to_nat dotIndex) p)
  else (p, EmptyString).

(** [base64.b64encode(bs).decode('utf-8')]. *)
Definition b64_alphabet : string :=
  "ABCDEFGHIJKLMNOPQRSTUVWXYZabcdefghijklmnopqrstuvwxyz0123456789+/".

Definition b64_digit (n : N) : ascii :=
  match String.get (N.to_nat n) b64_alphabet with
  | Some c => c
  | None => "="%char
  end.

Definition byteN (b : byte) : N := Byte.to_N b.

Fixpoint b64encode (bs : list byte) : string :=
  match bs with
  | [] => EmptyString
  | [a] =>
      let n := (byteN a * 65536)%N in
      String (b64_digit (n / 262144)%N)
        (String (b64_digit ((n / 4096) mod 64)%N) "==")
  | [a; b] =>
      let n := (byteN a * 65536 + byteN b * 256)%N in
      String (b64_digit (n / 262144)%N)
        (String (b64_digit ((n / 4096) mod 64)%N)
           (String (b64_digit ((n / 64) mod 64)%N) "="))
  | a :: b :: c :: rest =>
      let n := (byteN a * 65536 + byteN b * 256 + byteN c)%N in
      String (b64_digit (n / 262144)%N)
        (String (b64_digit ((n / 4096) mod 64)%N)
           (String (b64_digit ((n / 64) mod 64)%N)
              (String (b64_digit (n mod 64)%N) (b64encode rest))))
  end.

End Py.

Import Py.

Notation "x <- m ;; k" := (Py.bind m (fun x => k))
  (at level 61, m at next level, right associativity).

(** ** Tabular data: the part of a pandas [DataFrame] the agent reads *)

Module Frame.

(** A dtype, as far as the agent looks at it: its name, [str(dtype)], and
    whether [select_dtypes(include=np.number)] selects columns of it. *)
Record Dtype : Type := mkDtype {
  dtype_str : string;
  is_number : bool
}.

(** Some dtypes that [read_csv] and [read_excel] infer.  Integers, floats
    and durations are selected as numbers (the type of a duration is a
    subclass of numpy's signed integers); booleans, objects and dates are
    not. *)
Definition Int64 : Dtype := mkDtype "int64" true.
Definition UInt64 : Dtype := mkDtype "uint64" true.
Definition Float64 : Dtype := mkDtype "float64" true.
Definition BoolDtype : Dtype := mkDtype "bool" false.
Definition ObjectDtype : Dtype := mkDtype "object" false.
Definition Datetime64 : Dtype := mkDtype "datetime64[ns]" false.
Definition Timedelta64 : Dtype := mkDtype "timedelta64[ns]" true.

(** A cell that holds a value.  A float is kept as its 64 bits and a value
    of another type (a date, a duration) as its text: the agent never
    computes with them. *)
Inductive Scalar : Type :=
| SInt (z : Z)
| SFloat (bits : Z)
| SBool (b : bool)
| SStr (s : string)
| SOther (repr : string).

(** A cell; [None] is the missing value (NaN, None, NaT). *)
Definition Cell : Type := option Scalar.

Record Column : Type := mkColumn {
  col_name : string;
  col_dtype : Dtype
}.

(** Columns in source order, rows in source order; the cells of a row
    follow the columns. *)
Record DataFrame : Type := mkDataFrame {
  columns : list Column;
  rows : list (list Cell)
}.

(** [df.shape]. *)
Definition shape (df : DataFrame) : nat * nat :=
  (List.length (rows df), List.length (columns df)).

(** [df.head()]: the first five rows. *)
Definition head (df : DataFrame) : DataFrame :=
  mkDataFrame (columns df) (firstn 5 (rows df)).

Definition is_null (c : Cell) : bool :=
  match c with
  | None => true
  | Some _ => false
  end.

(** The number of missing cells in column [j]. *)
Definition null_count (j : nat) (rs : list (list Cell)) : nat :=
  List.length (filter (fun r => is_null (nth j r None)) rs).

Fixpoint null_counts (j : nat) (cols : list Column) (rs : list (list Cell))
  : list (string * nat) :=
  match cols with
  | [] => []
  | c :: cols' => (col_name c, null_count j rs) :: null_counts (S j) cols' rs
  end.

(** [df.isnull().sum().to_dict()]. *)
Definition isnull_sum (df : DataFrame) : list (string * nat) :=
  null_counts 0 (columns df) (rows df).

(** [df.dtypes.apply(lambda x: str(x)).to_dict()]. *)
Definition dtypes_str (df : DataFrame) : list (string * string) :=
  map (fun c => (col_name c, dtype_str (col_dtype c))) (columns df).

(** [df.to_dict(orient='records')]. *)
Definition to_dict_records (df : DataFrame) : list (list (string * Cell)) :=
  map (fun r => combine (map col_name (columns df)) r) (rows df).

(** [df.select_dtypes(include=np.number).columns.tolist()]. *)
Definition numeric_columns (df : DataFrame) : list string :=
  map col_name (filter (fun c => is_number (col_dtype c)) (columns df)).

End Frame.

Import Frame.

(** ** The completion service and the other collaborators *)

(** One message of a conversation, [{'role': ..., 'content': ...}]. *)
Record ChatTurn : Type := mkChatTurn {
  role : string;
  content : string
}.

(** The keyword arguments of [client.chat.completions.create]. *)
Record Request : Type := mkRequest {
  req_model : string;
  req_messages : list ChatTurn;
  req_max_tokens : nat
}.

(** The response object; an attribute read with [getattr(_, _, None)] is an
    [option]. *)
Record Message : Type := mkMessage {
  msg_content : option string
}.

Record Choice : Type := mkChoice {
  choice_message : option Message
}.

Record Response : Type := mkResponse {
  resp_choices : option (list Choice)
}.

(** What the agent calls and does not define. *)
Record Env : Type := mkEnv {
  (** [pd.read_csv(path)] and [pd.read_excel(path)] *)
  pd_read_csv : string -> Exc DataFrame;
  pd_read_excel : string -> Exc DataFrame;
  (** [open(path, 'r', encoding='utf-8')] followed by [f.read()] *)
  open_read_text : string -> Exc string;
  (** [Document(path)], as the texts of its paragraphs *)
  docx_Document : string -> Exc (list string);
  (** [PdfReader(path)], as the outcome of [extract_text()] on each page *)
  pdf_PdfReader : string -> Exc (list (Exc string));
  (** [open(path, 'rb')] followed by [read()] *)
  open_read_bytes : string -> Exc (list byte);
  (** [df.to_string()] *)
  df_to_string : DataFrame -> string;
  (** [client.chat.completions.create(...)] *)
  completions_create : Request -> Exc Response
}.

(** A plotly figure, as the arguments it was built from. *)
Inductive Figure : Type :=
| px_histogram (df : DataFrame) (x : string) (title : string)
| px_scatter (df : DataFrame) (x y : string) (title : string).

(** ** The agent *)

(** An entry of [analysis_history]. *)
Record AnalysisRecord : Type := mkRecord {
  rec_question : string;
  rec_answer : string;
  rec_context : string
}.

Record DataAnalystAgent : Type := mkAgent {
  data : option DataFrame;
  text_content : option string;
  image_content : option string;
  analysis_history : list AnalysisRecord;
  model : string
}.

(** [__init__]: an empty key raises, any other key gives the empty agent
    (the client built from the key is the [completions_create] of [Env]). *)
Definition init (api_key : string) : Exc DataAnalystAgent :=
  if negb (truthy api_key)
  then Raise "TOGETHER_API_KEY not found in .env file or provided"
  else Ok (mkAgent None None None []
             "meta-llama/Llama-4-Maverick-17B-128E-Instruct-FP8").

(** The three assignments of [load_document]. *)
Definition set_data (self : DataAnalystAgent) (df : DataFrame) :=
  mkAgent (Some df) (text_content self) (image_content self)
    (analysis_history self) (model self).

Definition set_text_content (self : DataAnalystAgent) (t : string) :=
  mkAgent (data self) (Some t) (image_content self)
    (analysis_history self) (model self).

Definition set_image_content (self : DataAnalystAgent) (b64 : string) :=
  mkAgent (data self) (text_content self) (Some b64)
    (analysis_history self) (model self).

(** The dictionary [{'status': ..., 'message': ...}] of [load_document]. *)
Record LoadResult : Type := mkLoadResult {
  status : string;
  message : string
}.

(** [[page.extract_text() for page in reader.pages if page.extract_text()]]:
    the pages are read in order, a page that raises ends the loop, a page
    with no text is left out. *)
Fixpoint pdf_texts (pages : list (Exc string)) : Exc (list string) :=
  match pages with
  | [] => Ok []
  | page :: pages' =>
      t <- page ;;
      ts <- pdf_texts pages' ;;
      Ok (if truthy t then t :: ts else ts)
  end.

(** [load_document].  Each branch assigns after its parser has returned, so
    an exception leaves the agent as it was; the [except] clause turns it
    into an error result. *)
Definition load_document (env : Env) (self : DataAnalystAgent)
    (file_path : string) : LoadResult * DataAnalystAgent :=
  let ext := lower (snd (splitext file_path)) in
  let body : Exc (LoadResult * DataAnalystAgent) :=
    if str_in ext [".csv"; ".xlsx"] then
      df <- (if ext =? ".csv" then pd_read_csv env file_path
             else pd_read_excel env file_path) ;;
      Ok (mkLoadResult "success"
            ("Data loaded successfully. Shape: " ++ str_of_shape (shape df)),
          set_data self df)
    else if ext =? ".txt" then
      t <- open_read_text env file_path ;;
      Ok (mkLoadResult "success" "Text file loaded successfully.",
          set_text_content self t)
    else if ext =? ".docx" then
      paragraphs <- docx_Document env file_path ;;
      Ok (mkLoadResult "success" "DOCX file loaded successfully.",
          set_text_content self (join nl paragraphs))
    else if ext =? ".pdf" then
      pages <- pdf_PdfReader env file_path ;;
      texts <- pdf_texts pages ;;
      Ok (mkLoadResult "success" "PDF file loaded successfully.",
          set_text_content self (join nl texts))
    else if str_in ext [".png"; ".jpg"; ".jpeg"] then
      bytes <- open_read_bytes env file_path ;;
      Ok (mkLoadResult "success" "Image file loaded successfully.",
          set_image_content self (b64encode bytes))
    else
      Ok (mkLoadResult "error" "Unsupported file type.", self)
  in
  match body with
  | Ok r => r
  | Raise e => (mkLoadResult "error" ("Error loading file: " ++ e), self)
  end.

(** The dictionary that [get_data_summary] returns, by its ['type'] key;
    [SummaryError] is [{'error': ...}]. *)
Inductive Summary : Type :=
| SummaryStructured (shape : nat * nat)
    (missing_values : list (string * nat))
    (dtypes : list (string * string))
    (sample_data : list (list (string * Cell)))
| SummaryText (length : nat) (word_count : nat) (preview : string)
| SummaryImage (message : string)
| SummaryError (error : string).

(** [get_data_summary]: the first payload that is not [None], looked for in
    the order [data], [text_content], [image_content]. *)
Definition get_data_summary (self : DataAnalystAgent) : Summary :=
  match data self with
  | Some df =>
      SummaryStructured (shape df) (isnull_sum df) (dtypes_str df)
        (to_dict_records (head df))
  | None =>
      match text_content self with
      | Some t =>
          SummaryText (String.length t) (List.length (split t))
            (slice_to 500 t)
      | None =>
          match image_content self with
          | Some _ =>
              SummaryImage
                "Image summary is not available. Ask questions about the image content."
          | None => SummaryError "No data loaded."
          end
      end
  end.

(** An entry of the list that [create_visualizations] returns. *)
Inductive Visualization : Type :=
| VizError (error : string)
| Viz (title : string) (figure : Figure) (insights : string).

(** The entry appended under [if len(numeric_cols) > 0]. *)
Definition histogram_of (df : DataFrame) (col : string) : Visualization :=
  Viz ("Histogram of " ++ col)
    (px_histogram df col ("Histogram of " ++ col))
    ("This histogram shows the distribution of " ++ col ++ ".").

(** The entry appended under [if len(numeric_cols) > 1]. *)
Definition scatter_of (df : DataFrame) (x_col y_col : string)
  : Visualization :=
  Viz ("Scatter Plot: " ++ x_col ++ " vs " ++ y_col)
    (px_scatter df x_col y_col ("Scatter Plot: " ++ x_col ++ " vs " ++ y_col))
    ("This scatter plot shows the relationship between " ++ x_col
     ++ " and " ++ y_col ++ ".").

(** [create_visualizations]. *)
Definition create_visualizations (self : DataAnalystAgent)
  : list Visualization :=
  match data self with
  | None => [VizError "No data loaded for visualization."]
  | Some df =>
      let visualizations := [] in
      let numeric_cols := numeric_columns df in
      match numeric_cols with
      | [] => [VizError "No numeric columns to visualize."]
      | _ :: _ =>
          let visualizations :=
            if (0 <? List.length numeric_cols)%nat
            then (visualizations
                  ++ [histogram_of df (nth 0 numeric_cols "")])%list
            else visualizations in
          let visualizations :=
            if (1 <? List.length numeric_cols)%nat
            then (visualizations
                  ++ [scatter_of df (nth 0 numeric_cols "")
                        (nth 1 numeric_cols "")])%list
            else visualizations in
          visualizations
      end
  end.

(** The context string that [answer_question] builds first: a segment for
    [data] when it is not [None], then one for [text_content] and one for
    [image_content] when they are truthy. *)
Definition context_of (env : Env) (self : DataAnalystAgent) : string :=
  let context := "" in
  let context :=
    match data self with
    | Some df =>
        context ++ "Dataset Info: " ++ df_to_string env (head df) ++ nl
        ++ "Shape: " ++ str_of_shape (shape df) ++ nl
    | None => context
    end in
  let context :=
    match text_content self with
    | Some t =>
        if truthy t
        then context ++ "Text Content: " ++ slice_to 1000 t ++ "..." ++ nl
        else context
    | None => context
    end in
  let context :=
    match image_content self with
    | Some b64 =>
        if truthy b64
        then context
             ++ "Image content is available but cannot be displayed in text form."
             ++ nl
        else context
    | None => context
    end in
  context.

(** The message list that [answer_question] builds next: the turns of
    [chat_history] when it is given and not empty, then the question. *)
Definition messages_of (context question : string)
    (chat_history : option (list ChatTurn)) : list ChatTurn :=
  let messages := [] in
  let messages :=
    match chat_history with
    | Some ((_ :: _) as history) =>
        fold_left
          (fun messages message =>
             (messages ++ [mkChatTurn (role message) (content message)])%list)
          history messages
    | _ => messages
    end in
  (messages
   ++ [mkChatTurn "user"
         ("Context: " ++ context ++ nl ++ "Question: " ++ question)])%list.

(** The request of [answer_question]. *)
Definition request_of (env : Env) (self : DataAnalystAgent)
    (question : string) (chat_history : option (list ChatTurn)) : Request :=
  mkRequest (model self)
    (messages_of (context_of env self) question chat_history) 1000.

(** The answer read from a response: the content of the first choice's
    message, or [""] when a link of that chain is missing or falsy. *)
Definition llm_answer_of (response : Response) : string :=
  let llm_answer := "" in
  match resp_choices response with
  | Some (choice0 :: _) =>
      match choice_message choice0 with
      | Some message =>
          match msg_content message with
          | Some content => if truthy content then content else llm_answer
          | None => llm_answer
          end
      | None => llm_answer
      end
  | _ => llm_answer
  end.

(** What [answer_question] returns: [{'llm_answer': ...,
    'quantitative_answer': {'details': ...}}] or [{'error': ...}]. *)
Inductive Answer : Type :=
| AnswerOk (llm_answer : string) (quantitative_details : string)
| AnswerError (error : string).

Definition append_history (self : DataAnalystAgent) (r : AnalysisRecord) :=
  mkAgent (data self) (text_content self) (image_content self)
    (analysis_history self ++ [r])%list (model self).

(** [answer_question]. *)
Definition answer_question (env : Env) (self : DataAnalystAgent)
    (question : string) (chat_history : option (list ChatTurn))
  : Answer * DataAnalystAgent :=
  let context := context_of env self in
  match completions_create env (request_of env self question chat_history) with
  | Ok response =>
      let llm_answer := llm_answer_of response in
      let llm_answer :=
        if negb (truthy llm_answer)
        then "Error: Could not parse LLM response."
        else llm_answer in
      let quantitative_answer := "No specific quantitative data extracted." in
      (AnswerOk llm_answer quantitative_answer,
       append_history self (mkRecord question llm_answer context))
  | Raise e => (AnswerError ("Error answering question: " ++ e), self)
  end.

(** ** The documents of the specification *)

(** The three variants of a document. *)
Inductive Variant : Type :=
| VTabular
| VText
| VImage.

(** A loaded document: what one of the three payloads holds. *)
Inductive Document : Type :=
| Tabular (df : DataFrame)
| Text (t : string)
| Image (b64 : string).

Definition variant (d : Document) : Variant :=
  match d with
  | Tabular _ => VTabular
  | Text _ => VText
  | Image _ => VImage
  end.

Definition Variant_eqb (v w : Variant) : bool :=
  match v, w with
  | VTabular, VTabular | VText, VText | VImage, VImage => true
  | _, _ => false
  end.

(** Writing a document into the payload of its variant. *)
Definition store (self : DataAnalystAgent) (d : Document) : DataAnalystAgent :=
  match d with
  | Tabular df => set_data self df
  | Text t => set_text_content self t
  | Image b64 => set_image_content self b64
  end.

(** The payload of a variant, as a document. *)
Definition stored (self : DataAnalystAgent) (v : Variant) : option Document :=
  match v with
  | VTabular => option_map Tabular (data self)
  | VText => option_map Text (text_content self)
  | VImage => option_map Image (image_content self)
  end.

(** The supported extensions and the variant each one loads, as the
    specification lists them. *)
Definition supported : list string :=
  [".csv"; ".xlsx"; ".txt"; ".docx"; ".pdf"; ".png"; ".jpg"; ".jpeg"].

Definition variant_of_ext (ext : string) : option Variant :=
  if str_in ext [".csv"; ".xlsx"] then Some VTabular
  else if str_in ext [".txt"; ".docx"; ".pdf"] then Some VText
  else if str_in ext [".png"; ".jpg"; ".jpeg"] then Some VImage
  else None.

(** The extension [load_document] dispatches on. *)
Definition extension (file_path : string) : string :=
  lower (snd (splitext file_path)).

(** The parser that an extension selects, run on a path: [None] when no
    parser is selected, [Some (Raise e)] when the parser raises, and
    [Some (Ok (d, m))] when it returns document [d], with [m] the message of
    the success. *)
Definition parse (env : Env) (file_path ext : string)
  : option (Exc (Document * string)) :=
  if ext =? ".csv" then
    Some (df <- pd_read_csv env file_path ;;
          Ok (Tabular df,
              "Data loaded successfully. Shape: " ++ str_of_shape (shape df)))
  else if ext =? ".xlsx" then
    Some (df <- pd_read_excel env file_path ;;
          Ok (Tabular df,
              "Data loaded successfully. Shape: " ++ str_of_shape (shape df)))
  else if ext =? ".txt" then
    Some (t <- open_read_text env file_path ;;
          Ok (Text t, "Text file loaded successfully."))
  else if ext =? ".docx" then
    Some (paragraphs <- docx_Document env file_path ;;
          Ok (Text (join nl paragraphs), "DOCX file loaded successfully."))
  else if ext =? ".pdf" then
    Some (pages <- pdf_PdfReader env file_path ;;
          texts <- pdf_texts pages ;;
          Ok (Text (join nl texts), "PDF file loaded successfully."))
  else if (ext =? ".png") || (ext =? ".jpg") || (ext =? ".jpeg") then
    Some (bytes <- open_read_bytes env file_path ;;
          Ok (Image (b64encode bytes), "Image file loaded successfully."))
  else None.

(** A response that lacks the answer: no choices, no message in the first
    choice, or no content in that message. *)
Definition missing_content (response : Response) : bool :=
  match resp_choices response with
  | None | Some [] => true
  | Some (choice0 :: _) =>
      match choice_message choice0 with
      | None => true
      | Some message =>
          match msg_content message with
          | None => true
          | Some content => negb (truthy content)
          end
      end
  end.

(** The number of whitespace-delimited tokens of a text: the positions
    where a character that is not whitespace follows the start of the text
    or a whitespace. *)
Fixpoint token_starts (after_space : bool) (s : string) : nat :=
  match s with
  | EmptyString => 0
  | String c s' =>
      (if after_space && negb (isspace c) then 1 else 0)
      + token_starts (isspace c) s'
  end.

Definition token_count (s : string) : nat := token_starts true s.

(** The environment with another completion service. *)
Definition with_service (env : Env) (service : Request -> Exc Response) : Env :=
  mkEnv (pd_read_csv env) (pd_read_excel env) (open_read_text env)
    (docx_Document env) (pdf_PdfReader env) (open_read_bytes env)
    (df_to_string env) service.

(** The agent that holds document [d] and no other payload. *)
Definition holding_only (self : DataAnalystAgent) (d : Document)
  : DataAnalystAgent :=
  store (mkAgent None None None (analysis_history self) (model self)) d.

(** No column of the list has a numeric dtype. *)
Definition no_numbers (cols : list Column) : bool :=
  forallb (fun c => negb (is_number (col_dtype c))) cols.

(** ** A sample file system and sample services *)

Module Sample.

(** Ten sales rows with columns [date], [amount], [qty]; two amounts are
    missing. *)
Definition sales_columns : list Column :=
  [mkColumn "date" ObjectDtype; mkColumn "amount" Float64;
   mkColumn "qty" Int64].

Definition sale (date : string) (amount : Cell) (qty : Z) : list Cell :=
  [Some (SStr date); amount; Some (SInt qty)].

(** The bits of the floats 1.0 and 2.5. *)
Definition f1_0 : Cell := Some (SFloat 4607182418800017408).
Definition f2_5 : Cell := Some (SFloat 4612811918334230528).

Definition sales : DataFrame :=
  mkDataFrame sales_columns
    [sale "2024-01-01" f1_0 3; sale "2024-01-02" None 1;
     sale "2024-01-03" f2_5 4; sale "2024-01-04" f1_0 1;
     sale "2024-01-05" f2_5 5; sale "2024-01-06" None 9;
     sale "2024-01-07" f1_0 2; sale "2024-01-08" f2_5 6;
     sale "2024-01-09" f1_0 5; sale "2024-01-10" f2_5 3].

(** A table of names only: no numeric column. *)
Definition names : DataFrame :=
  mkDataFrame [mkColumn "first" ObjectDtype; mkColumn "last" ObjectDtype]
    [[Some (SStr "Ada"); Some (SStr "Lovelace")]].

Definition no_such_file (path : string) : string :=
  "[Errno 2] No such file or directory: '" ++ path ++ "'".

Definition read_csv (path : string) : Exc DataFrame :=
  if path =? "/tmp/sales.csv" then Ok sales
  else if path =? "/tmp/NAMES.CSV" then Ok names
  else if path =? "/tmp/broken.csv" then Raise "No columns to parse from file"
  else Raise (no_such_file path).

Definition read_excel (path : string) : Exc DataFrame :=
  if path =? "/tmp/sales.xlsx" then Ok sales
  else Raise (no_such_file path).

Definition read_text (path : string) : Exc string :=
  if path =? "/tmp/hello.txt" then Ok "Hello world"
  else if path =? "/tmp/empty.txt" then Ok ""
  else if path =? "/tmp/notes.TXT" then Ok "second note"
  else Raise (no_such_file path).

Definition read_docx (path : string) : Exc (list string) :=
  if path =? "/tmp/memo.docx" then Ok ["Dear all,"; "see the figures."]
  else Raise (no_such_file path).

Definition read_pdf (path : string) : Exc (list (Exc string)) :=
  if path =? "/tmp/paper.pdf" then Ok [Ok "Page one"; Ok ""; Ok "Page three"]
  else if path =? "/tmp/damaged.pdf"
  then Ok [Ok "Page one"; Raise "Unexpected end of stream"]
  else Raise (no_such_file path).

Definition read_bytes (path : string) : Exc (list byte) :=
  if path =? "/tmp/logo.png" then Ok [x4d; x61; x6e; x4d]%byte
  else Raise (no_such_file path).

(** A rendering of a frame that only tells its shape. *)
Definition render (df : DataFrame) : string :=
  "<frame " ++ str_of_shape (shape df) ++ ">".

(** A service that answers with no choice at all. *)
Definition no_choices (_ : Request) : Exc Response :=
  Ok (mkResponse (Some [])).

(** A service that repeats the content of the last message. *)
Definition echo (r : Request) : Exc Response :=
  Ok (mkResponse
        (Some [mkChoice
                 (Some (mkMessage
                          (Some (content
                                   (last (req_messages r)
                                      (mkChatTurn "" ""))))))])).

(** A service that answers like [echo] to a request of three messages and
    is busy otherwise. *)
Definition echo_third (r : Request) : Exc Response :=
  if (List.length (req_messages r) =? 3)%nat then echo r
  else Raise "Service busy.".

(** A service that cannot be reached. *)
Definition unreachable (_ : Request) : Exc Response :=
  Raise "Connection error.".

Definition env (service : Request -> Exc Response) : Env :=
  mkEnv read_csv read_excel read_text read_docx read_pdf read_bytes render
    service.

(** The agent that [init] builds from a key. *)
Definition fresh : DataAnalystAgent :=
  mkAgent None None None []
    "meta-llama/Llama-4-Maverick-17B-128E-Instruct-FP8".

End Sample.

(** ** Sequences of calls *)

(** A call that may change the agent. *)
Inductive Call : Type :=
| CallLoad (file_path : string)
| CallAsk (question : string) (chat_history : option (list ChatTurn)).

Definition call (env : Env) (self : DataAnalystAgent) (c : Call)
  : DataAnalystAgent :=
  match c with
  | CallLoad file_path => snd (load_document env self file_path)
  | CallAsk question chat_history =>
      snd (answer_question env self question chat_history)
  end.

Definition calls (env : Env) (self : DataAnalystAgent) (cs : list Call)
  : DataAnalystAgent :=
  fold_left (call env) cs self.

Definition is_ask (c : Call) : bool :=
  match c with
  | CallAsk _ _ => true
  | CallLoad _ => false
  end.

Definition is_answer (a : Answer) : bool :=
  match a with
  | AnswerOk _ _ => true
  | AnswerError _ => false
  end.

(** The questions of a sequence of calls that got an answer, in order. *)
Fixpoint answered_questions (env : Env) (self : DataAnalystAgent)
    (cs : list Call) : list string :=
  match cs with
  | [] => []
  | c :: cs' =>
      (match c with
       | CallAsk question chat_history =>
           if is_answer (fst (answer_question env self question chat_history))
           then [question] else []
       | CallLoad _ => []
       end ++ answered_questions env (call env self c) cs')%list
  end.

(** ** Texts without their whitespace *)

Fixpoint without_spaces (s : string) : string :=
  match s with
  | EmptyString => EmptyString
  | String c s' =>
      if isspace c then without_spaces s' else String c (without_spaces s')
  end.

Fixpoint no_space (s : string) : bool :=
  match s with
  | EmptyString => true
  | String c s' => negb (isspace c) && no_space s'
  end.

Fixpoint all_space (s : string) : bool :=
  match s with
  | EmptyString => true
  | String c s' => isspace c && all_space s'
  end.

(** The characters of a base64 text. *)
Definition is_b64_char (c : ascii) : bool :=
  let n := nat_of_ascii c in
  (((65 <=? n) && (n <=? 90)) || ((97 <=? n) && (n <=? 122))
   || ((48 <=? n) && (n <=? 57)) || (n =? 43) || (n =? 47) || (n =? 61))%nat.

Fixpoint all_b64 (s : string) : bool :=
  match s with
  | EmptyString => true
  | String c s' => is_b64_char c && all_b64 s'
  end.

(** The columns a figure plots. *)
Definition figure_columns (f : Figure) : list string :=
  match f with
  | px_histogram _ x _ => [x]
  | px_scatter _ x y _ => [x; y]
  end.

Definition figure_data (f : Figure) : DataFrame :=
  match f with
  | px_histogram df _ _ => df
  | px_scatter df _ _ _ => df
  end.

Definition figure_title (f : Figure) : string :=
  match f with
  | px_histogram _ _ title => title
  | px_scatter _ _ _ title => title
  end.

(** Character [c] occurs in [s]. *)
Fixpoint has_char (c : ascii) (s : string) : bool :=
  match s with
  | EmptyString => false
  | String d s' => Ascii.eqb d c || has_char c s'
  end.

(** ** The caller: the parts of [app.py] that prepare the agent's inputs and
    read its results *)

Module App.

(** [needle in s] for two strings. *)
Fixpoint contains (needle s : string) : bool :=
  prefix needle s
  || match s with
     | EmptyString => false
     | String _ s' => contains needle s'
     end.

(** [s.split(sep)] for a separator of one character; [part] is the part
    being read. *)
Fixpoint split_on_from (sep : ascii) (part : string) (s : string)
  : list string :=
  match s with
  | EmptyString => [part]
  | String c s' =>
      if Ascii.eqb c sep then part :: split_on_from sep EmptyString s'
      else split_on_from sep (part ++ String c EmptyString) s'
  end.

Definition split_on (sep : ascii) (s : string) : list string :=
  split_on_from sep EmptyString s.

(** [uploaded_file.name.split('.')[-1] if '.' in uploaded_file.name
    else 'tmp']. *)
Definition file_extension (name : string) : string :=
  if contains "." name then last (split_on "."%char name) EmptyString
  else "tmp".

(** [os.path.join(a, b)] of [posixpath], for one component [b]. *)
Definition path_join (a b : string) : string :=
  if prefix "/" b then b
  else if negb (truthy a) || (last (list_ascii_of_string a) " "%char
                              =? "/"%char)%char
       then a ++ b
       else a ++ "/" ++ b.

(** The name of [NamedTemporaryFile(delete=False, suffix=...)]: in the
    directory for temporary files, the prefix "tmp", some characters chosen
    at random and the suffix. *)
Definition temp_name (dir random suffix : string) : string :=
  path_join dir ("tmp" ++ random ++ suffix).

(** The path that the upload passes to [load_document]. *)
Definition tmp_file_path (dir random name : string) : string :=
  temp_name dir random ("." ++ file_extension name).

(** The types the uploader accepts. *)
Definition uploader_types : list string :=
  ["csv"; "xlsx"; "xls"; "pdf"; "docx"; "doc"; "txt"; "jpg"; "jpeg"; "png";
   "bmp"].

(** The "Missing" metric: [sum(missing_values.values())]. *)
Definition missing_count (missing_values : list (string * nat)) : nat :=
  list_sum (map snd missing_values).

(** The "Numeric" metric: [len([k for k, v in dtypes.items()
    if 'int' in str(v) or 'float' in str(v)])]. *)
Definition numeric_count (dtypes : list (string * string)) : nat :=
  List.length
    (filter (fun kv => contains "int" (snd kv) || contains "float" (snd kv))
       dtypes).

(** [safe_answer_question]: the call of [answer_question]; its [except]
    clause is for exceptions that escape [answer_question], and with turns
    that have a role and a content none does. *)
Definition safe_answer_question (env : Env) (agent : DataAnalystAgent)
    (question : string) (chat_history : list ChatTurn)
  : Answer * DataAnalystAgent :=
  answer_question env agent question (Some chat_history).

(** [response.get('llm_answer', 'No answer generated')]. *)
Definition shown_answer (response : Answer) : string :=
  match response with
  | AnswerOk llm_answer _ => llm_answer
  | AnswerError _ => "No answer generated"
  end.

(** One run of the chat tab with the text [prompt] of the chat input, on
    the messages of the session: nothing happens for an empty prompt;
    otherwise the prompt is appended as a user turn, the agent is asked
    with the messages so far, and what it answered is appended as an
    assistant turn. *)
Definition chat (env : Env) (agent : DataAnalystAgent)
    (messages : list ChatTurn) (prompt : string)
  : list ChatTurn * DataAnalystAgent :=
  if truthy prompt then
    let messages := (messages ++ [mkChatTurn "user" prompt])%list in
    let (response, agent) := safe_answer_question env agent prompt messages in
    ((messages ++ [mkChatTurn "assistant" (shown_answer response)])%list,
     agent)
  else (messages, agent).

(** The chat tab run once for each prompt of a list. *)
Fixpoint chats (env : Env) (agent : DataAnalystAgent)
    (messages : list ChatTurn) (prompts : list string)
  : list ChatTurn * DataAnalystAgent :=
  match prompts with
  | [] => (messages, agent)
  | prompt :: prompts' =>
      let (messages, agent) := chat env agent messages prompt in
      chats env agent messages prompts'
  end.

(** The roles of the messages are user, assistant, user, assistant, ... *)
Fixpoint alternates (messages : list ChatTurn) : bool :=
  match messages with
  | [] => true
  | u :: rest =>
      match rest with
      | [] => false
      | a :: rest' =>
          (role u =? "user") && (role a =? "assistant") && alternates rest'
      end
  end.

(** [question[:60] + "..." if len(question) > 60 else question]. *)
Definition question_preview (question : string) : string :=
  if (60 <? String.length question)%nat then slice_to 60 question ++ "..."
  else question.

(** The expanders of the history tab, as pairs of a label and the record
    shown under it: [enumerate(reversed(history))], each labelled
    [f"Q{len(history)-i}: {question_preview}"]. *)
Definition history_expanders (history : list AnalysisRecord)
  : list (string * AnalysisRecord) :=
  map (fun p : nat * AnalysisRecord =>
         let (i, item) := p in
         ("Q" ++ str_of_nat (List.length history - i) ++ ": "
          ++ question_preview (rec_question item),
          item))
    (combine (seq 0 (List.length history)) (rev history)).

End App.

(** * Properties *)

(** ** The Python helpers on known inputs *)

Example splitext_csv : splitext "/tmp/report.CSV" = ("/tmp/report", ".CSV").
Proof. reflexivity. Qed.

Example splitext_dotfile : splitext "/tmp/.csv" = ("/tmp/.csv", "").
Proof. reflexivity. Qed.

Example splitext_dot_in_dir : splitext "/tmp.d/report" = ("/tmp.d/report", "").
Proof. reflexivity. Qed.

Example splitext_two_dots : splitext "a/..b.tar.gz" = ("a/..b.tar", ".gz").
Proof. reflexivity. Qed.

Example extension_mixed_case : extension "/tmp/Photo.JpEg" = ".jpeg".
Proof. reflexivity. Qed.

Example split_hello : split "  Hello   world " = ["Hello"; "world"].
Proof. reflexivity. Qed.

Example b64_man : b64encode [x4d; x61; x6e]%byte = "TWFu".
Proof. reflexivity. Qed.

Example b64_ma : b64encode [x4d; x61]%byte = "TWE=".
Proof. reflexivity. Qed.

Example b64_m : b64encode [x4d]%byte = "TQ==".
Proof. reflexivity. Qed.

Example shape_text : str_of_shape (10, 3) = "(10, 3)".
Proof. reflexivity. Qed.

Example sales_summary :
  get_data_summary (set_data Sample.fresh Sample.sales)
  = SummaryStructured (10, 3) [("date", 0); ("amount", 2); ("qty", 0)]
      [("date", "object"); ("amount", "float64"); ("qty", "int64")]
      (to_dict_records (head Sample.sales)).
Proof. reflexivity. Qed.

(** ** The loader as a dispatch table *)

Ltac case_ext :=
  repeat match goal with
         | |- context [String.eqb ?a ?b] =>
             let E := fresh "E" in destruct (String.eqb a b) eqn:E; simpl
         end.

Ltac case_exc :=
  repeat match goal with
         | |- context [Py.bind ?m _] =>
             let E := fresh "E" in destruct m eqn:E; simpl
         end.

(** [load_document] runs the parser that [parse] selects, stores its
    document in the payload of its variant, and changes nothing when no
    parser is selected or the parser raises. *)
Lemma load_document_parse (env : Env) (self : DataAnalystAgent)
    (file_path : string) :
  load_document env self file_path
  = match parse env file_path (extension file_path) with
    | Some (Ok (d, m)) => (mkLoadResult "success" m, store self d)
    | Some (Raise e) =>
        (mkLoadResult "error" ("Error loading file: " ++ e), self)
    | None => (mkLoadResult "error" "Unsupported file type.", self)
    end.
Proof.
  unfold load_document, parse, extension, str_in, existsb.
  set (ext := lower (snd (splitext file_path))).
  case_ext; case_exc; reflexivity.
Qed.

(** [parse] selects a parser exactly for the supported extensions, and the
    document it returns has the variant listed for the extension. *)
Lemma parse_variant (env : Env) (file_path ext : string) :
  match parse env file_path ext with
  | Some (Ok (d, _)) => variant_of_ext ext = Some (variant d)
  | Some (Raise _) => variant_of_ext ext <> None
  | None => variant_of_ext ext = None
  end.
Proof.
  unfold parse, variant_of_ext, str_in, existsb.
  case_ext; case_exc; try reflexivity; discriminate.
Qed.

Lemma variant_of_ext_supported (ext : string) :
  variant_of_ext ext <> None <-> str_in ext supported = true.
Proof.
  unfold variant_of_ext, supported, str_in, existsb.
  case_ext; split; intro H; try reflexivity; try discriminate;
    try (exfalso; apply H; reflexivity).
Qed.

(** ** The extension does not depend on the case of the path *)

Lemma lower_char_idempotent (c : ascii) :
  lower_char (lower_char c) = lower_char c.
Proof. destruct c as [[] [] [] [] [] [] [] []]; reflexivity. Qed.

Lemma lower_char_dot (c : ascii) :
  Ascii.eqb (lower_char c) "."%char = Ascii.eqb c "."%char.
Proof. destruct c as [[] [] [] [] [] [] [] []]; reflexivity. Qed.

Lemma lower_char_slash (c : ascii) :
  Ascii.eqb (lower_char c) "/"%char = Ascii.eqb c "/"%char.
Proof. destruct c as [[] [] [] [] [] [] [] []]; reflexivity. Qed.

Lemma lower_idempotent (s : string) : lower (lower s) = lower s.
Proof.
  induction s as [|c s IH]; simpl; [reflexivity|].
  rewrite lower_char_idempotent, IH; reflexivity.
Qed.

Lemma rfind_from_lower (c : ascii) (p : string) (i last : Z) :
  (forall d, Ascii.eqb (lower_char d) c = Ascii.eqb d c) ->
  rfind_from c (lower p) i last = rfind_from c p i last.
Proof.
  intros Hc; revert i last; induction p as [|d p IH]; intros i last; simpl;
    [reflexivity|].
  rewrite Hc, IH; reflexivity.
Qed.

Lemma get_lower (p : string) (i : nat) :
  String.get i (lower p) = option_map lower_char (String.get i p).
Proof.
  revert i; induction p as [|d p IH]; intros [|i]; simpl; try reflexivity.
  apply IH.
Qed.

Lemma is_dot_lower (d : ascii) :
  match lower_char d with "."%char => true | _ => false end
  = match d with "."%char => true | _ => false end.
Proof. destruct d as [[] [] [] [] [] [] [] []]; reflexivity. Qed.

Lemma has_non_dot_lower (p : string) (i n : nat) :
  has_non_dot (lower p) i n = has_non_dot p i n.
Proof.
  revert i; induction n as [|n IH]; intros i; simpl; [reflexivity|].
  rewrite get_lower.
  destruct (String.get i p) as [d|]; simpl; [|reflexivity].
  rewrite IH.
  pose proof (is_dot_lower d) as Hd.
  destruct (lower_char d) as [[] [] [] [] [] [] [] []];
    destruct d as [[] [] [] [] [] [] [] []];
    try reflexivity; discriminate Hd.
Qed.

Lemma slice_from_lower (n : nat) (p : string) :
  slice_from n (lower p) = lower (slice_from n p).
Proof.
  revert p; induction n as [|n IH]; intros [|d p]; simpl; try reflexivity.
  apply IH.
Qed.

Lemma splitext_lower (p : string) :
  snd (splitext (lower p)) = lower (snd (splitext p)).
Proof.
  unfold splitext, rfind.
  rewrite !rfind_from_lower by (apply lower_char_slash || apply lower_char_dot).
  rewrite has_non_dot_lower.
  destruct ((_ >? _)%Z && _); simpl; [apply slice_from_lower|reflexivity].
Qed.

(** Two paths that differ only in the case of their characters have the
    same extension. *)
Lemma extension_case_insensitive (p p' : string) :
  lower p = lower p' -> extension p = extension p'.
Proof.
  intros H.
  assert (E : forall q, extension q = extension (lower q)).
  { intros q; unfold extension.
    rewrite splitext_lower, lower_idempotent; reflexivity. }
  rewrite (E p), (E p'), H; reflexivity.
Qed.

(** ** Loading *)

(** C8: [load_document] dispatches on the lower-cased extension of the
    path.  When the parser selected for that extension returns a document,
    the extension is one of the supported ones, the document has the variant
    listed for it (.csv/.xlsx Tabular, .txt/.docx/.pdf Text,
    .png/.jpg/.jpeg Image), and the load succeeds and stores it.  When the
    lower-cased extension is not supported, the load is an error
    "Unsupported file type." and the agent is unchanged.  A path that
    differs from [file_path] only in the case of its characters is
    dispatched on the same extension. *)
Theorem load_document_dispatch (env : Env) (self : DataAnalystAgent)
    (file_path : string) :
  let ext := lower (snd (splitext file_path)) in
  (forall d m,
      parse env file_path ext = Some (Ok (d, m)) ->
      variant_of_ext ext = Some (variant d)
      /\ load_document env self file_path
         = (mkLoadResult "success" m, store self d))
  /\ (str_in ext supported = false ->
      load_document env self file_path
      = (mkLoadResult "error" "Unsupported file type.", self))
  /\ (forall file_path',
         lower file_path' = lower file_path ->
         lower (snd (splitext file_path')) = ext).
Proof.
  intros ext; split; [|split].
  - intros d m Hp; split.
    + pose proof (parse_variant env file_path ext) as Hv.
      rewrite Hp in Hv; exact Hv.
    + rewrite load_document_parse; change (extension file_path) with ext; rewrite Hp; reflexivity.
  - intros Hs.
    assert (Hn : variant_of_ext ext = None).
    { destruct (variant_of_ext ext) eqn:Ev; [|reflexivity].
      assert (Hx : variant_of_ext ext <> None) by (rewrite Ev; discriminate).
      apply variant_of_ext_supported in Hx; congruence. }
    pose proof (parse_variant env file_path ext) as Hv.
    rewrite load_document_parse; change (extension file_path) with ext.
    destruct (parse env file_path ext) as [[[d m]|e]|]; try reflexivity.
    + congruence.
    + contradiction.
  - intros file_path' Hl; apply (extension_case_insensitive _ _ Hl).
Qed.

Lemma load_document_dispatch_witness :
  load_document (Sample.env Sample.echo) Sample.fresh "/tmp/NAMES.CSV"
  = (mkLoadResult "success" "Data loaded successfully. Shape: (1, 2)",
     set_data Sample.fresh Sample.names)
  /\ load_document (Sample.env Sample.echo) Sample.fresh "/tmp/archive.zip"
     = (mkLoadResult "error" "Unsupported file type.", Sample.fresh).
Proof.
  split.
  - apply (proj1 (load_document_dispatch (Sample.env Sample.echo)
                    Sample.fresh "/tmp/NAMES.CSV")
             (Tabular Sample.names)
             "Data loaded successfully. Shape: (1, 2)").
    reflexivity.
  - apply (proj1 (proj2 (load_document_dispatch (Sample.env Sample.echo)
                           Sample.fresh "/tmp/archive.zip"))).
    reflexivity.
Defined.

(** C4: for a path with a supported extension whose parser raises an
    exception with message [e], [load_document] returns the error result
    whose message is "Error loading file: " followed by [e], and the agent,
    with whatever it held before, is unchanged. *)
Theorem load_document_parse_failure (env : Env) (self : DataAnalystAgent)
    (file_path e : string) :
  let ext := lower (snd (splitext file_path)) in
  str_in ext supported = true ->
  parse env file_path ext = Some (Raise e) ->
  load_document env self file_path
  = (mkLoadResult "error" ("Error loading file: " ++ e), self).
Proof.
  intros ext _ Hp.
  rewrite load_document_parse; change (extension file_path) with ext; rewrite Hp; reflexivity.
Qed.

Lemma load_document_parse_failure_witness :
  load_document (Sample.env Sample.echo)
    (set_text_content Sample.fresh "kept") "/tmp/damaged.pdf"
  = (mkLoadResult "error" "Error loading file: Unexpected end of stream",
     set_text_content Sample.fresh "kept").
Proof.
  apply (@load_document_parse_failure (Sample.env Sample.echo)
           (set_text_content Sample.fresh "kept") "/tmp/damaged.pdf"
           "Unexpected end of stream");
    reflexivity.
Defined.

(** Every parser failure of a supported extension is one of these: the
    reader of the file raises, or a page of a PDF raises. *)
Lemma parse_failure_cases (env : Env) (file_path ext e : string) :
  parse env file_path ext = Some (Raise e) <->
  (ext = ".csv" /\ pd_read_csv env file_path = Raise e)
  \/ (ext = ".xlsx" /\ pd_read_excel env file_path = Raise e)
  \/ (ext = ".txt" /\ open_read_text env file_path = Raise e)
  \/ (ext = ".docx" /\ docx_Document env file_path = Raise e)
  \/ (ext = ".pdf"
      /\ (pdf_PdfReader env file_path = Raise e
          \/ exists pages, pdf_PdfReader env file_path = Ok pages
                           /\ pdf_texts pages = Raise e))
  \/ ((ext = ".png" \/ ext = ".jpg" \/ ext = ".jpeg")
      /\ open_read_bytes env file_path = Raise e).
Proof.
  unfold parse.
  split.
  - case_ext;
      repeat match goal with
             | H : String.eqb _ _ = true |- _ => apply String.eqb_eq in H
             end;
      try discriminate.
    + destruct (pd_read_csv env file_path); simpl; intros [=]; subst; auto.
    + destruct (pd_read_excel env file_path); simpl; intros [=]; subst;
        right; auto.
    + destruct (open_read_text env file_path); simpl; intros [=]; subst;
        right; right; auto.
    + destruct (docx_Document env file_path); simpl; intros [=]; subst;
        right; right; right; auto.
    + destruct (pdf_PdfReader env file_path) as [pages|]; simpl.
      * destruct (pdf_texts pages) eqn:Et; simpl; intros [=]; subst.
        right; right; right; right; left; split; auto.
        right; exists pages; auto.
      * intros [=]; subst. right; right; right; right; left; auto.
    + destruct (open_read_bytes env file_path); simpl; intros [=]; subst.
      right; right; right; right; right; auto.
    + destruct (open_read_bytes env file_path); simpl; intros [=]; subst.
      right; right; right; right; right; auto.
    + destruct (open_read_bytes env file_path); simpl; intros [=]; subst.
      right; right; right; right; right; auto.
  - intros [[-> H]|[[-> H]|[[-> H]|[[-> H]|[[-> H]|[H1 H]]]]]]; simpl.
    + rewrite H; reflexivity.
    + rewrite H; reflexivity.
    + rewrite H; reflexivity.
    + rewrite H; reflexivity.
    + destruct H as [H|[pages [H1 H2]]].
      * rewrite H; reflexivity.
      * rewrite H1; simpl; rewrite H2; reflexivity.
    + destruct H1 as [->|[->| ->]]; simpl; rewrite H; reflexivity.
Qed.

(** ** One payload per variant *)

Lemma stored_store_same (self : DataAnalystAgent) (d : Document) :
  stored (store self d) (variant d) = Some d.
Proof. destruct d; reflexivity. Qed.

Lemma stored_store_other (self : DataAnalystAgent) (d : Document)
    (v : Variant) :
  v <> variant d -> stored (store self d) v = stored self v.
Proof. destruct d, v; simpl; intros H; try reflexivity; contradiction. Qed.

Lemma store_store_same (self : DataAnalystAgent) (dA dB : Document) :
  variant dA = variant dB -> store (store self dA) dB = store self dB.
Proof. destruct dA, dB; simpl; intros H; try discriminate; reflexivity. Qed.

(** C1, as the code has it: the agent has one payload per variant.  After a
    successful load of A followed by a successful load of B, the payload of
    B's variant holds B and every payload of another variant is what it was
    before the load of B.  So when A and B have the same variant the agent
    is the one reached by loading B alone, with no trace of A; when they
    differ, A is still stored in the payload of its own variant. *)
Theorem load_replaces_own_payload (env : Env) (self : DataAnalystAgent)
    (pathA pathB : string) (dA dB : Document) (mA mB : string) :
  parse env pathA (extension pathA) = Some (Ok (dA, mA)) ->
  parse env pathB (extension pathB) = Some (Ok (dB, mB)) ->
  let self1 := snd (load_document env self pathA) in
  let self2 := snd (load_document env self1 pathB) in
  fst (load_document env self pathA) = mkLoadResult "success" mA
  /\ fst (load_document env self1 pathB) = mkLoadResult "success" mB
  /\ stored self2 (variant dB) = Some dB
  /\ (forall v, v <> variant dB -> stored self2 v = stored self1 v)
  /\ (variant dA = variant dB ->
      self2 = snd (load_document env self pathB))
  /\ (variant dA <> variant dB -> stored self2 (variant dA) = Some dA).
Proof.
  intros HA HB self1 self2.
  assert (E1 : load_document env self pathA
               = (mkLoadResult "success" mA, store self dA)).
  { rewrite load_document_parse, HA; reflexivity. }
  assert (E2 : load_document env self1 pathB
               = (mkLoadResult "success" mB, store self1 dB)).
  { rewrite load_document_parse, HB; reflexivity. }
  assert (E3 : load_document env self pathB
               = (mkLoadResult "success" mB, store self dB)).
  { rewrite load_document_parse, HB; reflexivity. }
  subst self2; rewrite E2; subst self1; rewrite E1, E3; simpl.
  repeat split.
  - apply stored_store_same.
  - intros v Hv; apply stored_store_other; exact Hv.
  - apply store_store_same.
  - intros Hd. rewrite stored_store_other by exact Hd.
    apply stored_store_same.
Qed.

Lemma load_replaces_own_payload_witness :
  snd (load_document (Sample.env Sample.echo)
         (snd (load_document (Sample.env Sample.echo) Sample.fresh
                 "/tmp/hello.txt"))
         "/tmp/notes.TXT")
  = snd (load_document (Sample.env Sample.echo) Sample.fresh "/tmp/notes.TXT").
Proof.
  apply (@load_replaces_own_payload (Sample.env Sample.echo) Sample.fresh
           "/tmp/hello.txt" "/tmp/notes.TXT"
           (Text "Hello world") (Text "second note")
           "Text file loaded successfully." "Text file loaded successfully.");
    reflexivity.
Defined.

(** C1 as stated fails: a table is loaded, then a text; both loads succeed,
    yet the summary, the visualizations and the context are those of the
    table, and differ from those of an agent that holds only the text. *)
Lemma single_slot_counterexample :
  let env := Sample.env Sample.echo in
  let loadA := load_document env Sample.fresh "/tmp/sales.csv" in
  let loadB := load_document env (snd loadA) "/tmp/hello.txt" in
  let self2 := snd loadB in
  let onlyB := holding_only Sample.fresh (Text "Hello world") in
  status (fst loadA) = "success"
  /\ status (fst loadB) = "success"
  /\ data self2 = Some Sample.sales
  /\ get_data_summary self2
     = SummaryStructured (10, 3) [("date", 0); ("amount", 2); ("qty", 0)]
         [("date", "object"); ("amount", "float64"); ("qty", "int64")]
         (to_dict_records (head Sample.sales))
  /\ get_data_summary onlyB = SummaryText 11 2 "Hello world"
  /\ get_data_summary self2 <> get_data_summary onlyB
  /\ create_visualizations self2
     = [histogram_of Sample.sales "amount";
        scatter_of Sample.sales "amount" "qty"]
  /\ create_visualizations self2 <> create_visualizations onlyB
  /\ context_of env self2
     = "Dataset Info: <frame (5, 3)>" ++ nl ++ "Shape: (10, 3)" ++ nl
       ++ "Text Content: Hello world..." ++ nl
  /\ context_of env self2 <> context_of env onlyB.
Proof.
  cbv zeta.
  repeat split; try reflexivity; vm_compute; discriminate.
Qed.

(** ** Summaries *)

Lemma truthy_append_char (tok : string) (c : ascii) :
  truthy (tok ++ String c EmptyString) = true.
Proof. destruct tok; reflexivity. Qed.

(** [split] returns as many tokens as the text has token starts. *)
Lemma split_from_length (s tok : string) :
  List.length (split_from tok s)
  = (if truthy tok then 1 else 0) + token_starts (negb (truthy tok)) s.
Proof.
  revert tok; induction s as [|c s IH]; intros tok; simpl.
  - destruct (truthy tok); reflexivity.
  - destruct (isspace c) eqn:Ec; simpl.
    + destruct (truthy tok); simpl; rewrite IH; simpl;
        rewrite ?andb_false_r; reflexivity.
    + rewrite IH, truthy_append_char; simpl.
      destruct (truthy tok); simpl; reflexivity.
Qed.

Lemma split_length (s : string) : List.length (split s) = token_count s.
Proof. unfold split, token_count; rewrite split_from_length; reflexivity. Qed.

Lemma slice_to_slice_from (n : nat) (s : string) :
  slice_to n s ++ slice_from n s = s.
Proof.
  unfold slice_to; revert s; induction n as [|n IH]; intros [|c s]; simpl;
    try reflexivity.
  rewrite IH; reflexivity.
Qed.

Lemma slice_to_length (n : nat) (s : string) :
  String.length (slice_to n s) = Nat.min n (String.length s).
Proof.
  unfold slice_to; revert s; induction n as [|n IH]; intros [|c s]; simpl;
    try reflexivity.
  rewrite IH; reflexivity.
Qed.

(** C7, as the code has it: when the agent holds a text [t] and no table,
    [get_data_summary] returns the text summary with the length of [t], the
    number of its whitespace-delimited tokens and its first 500 characters;
    for "Hello world" these are 11, 2 and "Hello world". *)
Theorem get_data_summary_text (self : DataAnalystAgent) (t : string) :
  data self = None ->
  text_content self = Some t ->
  get_data_summary self
  = SummaryText (String.length t) (token_count t) (slice_to 500 t)
  /\ slice_to 500 t ++ slice_from 500 t = t
  /\ String.length (slice_to 500 t) = Nat.min 500 (String.length t)
  /\ (t = "Hello world" ->
      get_data_summary self = SummaryText 11 2 "Hello world").
Proof.
  intros Hd Ht.
  assert (E : get_data_summary self
              = SummaryText (String.length t) (token_count t)
                  (slice_to 500 t)).
  { unfold get_data_summary; rewrite Hd, Ht, split_length; reflexivity. }
  repeat split.
  - exact E.
  - apply slice_to_slice_from.
  - apply slice_to_length.
  - intros ->; rewrite E; reflexivity.
Qed.

Lemma get_data_summary_text_witness :
  get_data_summary
    (snd (load_document (Sample.env Sample.echo) Sample.fresh
            "/tmp/hello.txt"))
  = SummaryText 11 2 "Hello world".
Proof.
  apply (@get_data_summary_text
           (snd (load_document (Sample.env Sample.echo) Sample.fresh
                   "/tmp/hello.txt"))
           "Hello world");
    reflexivity.
Defined.

(** C7 as stated fails: a table is loaded, then the text "Hello world";
    the load of the text succeeds and the text is held, yet the summary is
    that of the table, not the text summary. *)
Lemma text_summary_counterexample :
  let env := Sample.env Sample.echo in
  let loadA := load_document env Sample.fresh "/tmp/sales.csv" in
  let loadB := load_document env (snd loadA) "/tmp/hello.txt" in
  fst loadB = mkLoadResult "success" "Text file loaded successfully."
  /\ text_content (snd loadB) = Some "Hello world"
  /\ get_data_summary (snd loadB)
     = get_data_summary (set_data Sample.fresh Sample.sales)
  /\ get_data_summary (snd loadB) <> SummaryText 11 2 "Hello world"
  /\ forall length word_count preview,
      get_data_summary (snd loadB) <> SummaryText length word_count preview.
Proof.
  cbv zeta; repeat split; try reflexivity; vm_compute; discriminate.
Qed.

(** ** Context assembly *)

Lemma str_append_assoc (a b c : string) : (a ++ b) ++ c = a ++ (b ++ c).
Proof. induction a as [|x a IH]; simpl; [reflexivity|rewrite IH; reflexivity]. Qed.

Lemma str_append_nil_r (a : string) : a ++ "" = a.
Proof. induction a as [|x a IH]; simpl; [reflexivity|rewrite IH; reflexivity]. Qed.

(** C9: [context_of] is a total function to strings.  For every agent its
    value is the Tabular segment, then the Text segment, then the Image
    segment, where a payload that is absent contributes the empty string;
    with no payload at all the context is the empty string. *)
Theorem context_of_segments (env : Env) (self : DataAnalystAgent) :
  context_of env self
  = match data self with
    | Some df =>
        "Dataset Info: " ++ df_to_string env (head df) ++ nl
        ++ "Shape: " ++ str_of_shape (shape df) ++ nl
    | None => ""
    end
    ++ match text_content self with
       | Some t =>
           if truthy t
           then "Text Content: " ++ slice_to 1000 t ++ "..." ++ nl
           else ""
       | None => ""
       end
    ++ match image_content self with
       | Some b64 =>
           if truthy b64
           then "Image content is available but cannot be displayed in text form."
                ++ nl
           else ""
       | None => ""
       end
  /\ context_of env
       (mkAgent None None None (analysis_history self) (model self))
     = "".
Proof.
  split; [|reflexivity].
  unfold context_of.
  destruct (data self) as [df|]; destruct (text_content self) as [t|];
    destruct (image_content self) as [b|];
    try destruct (truthy t); try destruct (truthy b);
    rewrite ?str_append_assoc, ?str_append_nil_r; reflexivity.
Qed.

(** C10, as the code has it: after a successful load of a text document
    whose text is empty, the agent holds the empty text: [get_data_summary],
    when no table is held, is the text summary with length 0, word count 0
    and empty preview, while [context_of] has no Text segment, being the
    context of the same agent without any text. *)
Theorem empty_text_summary_without_segment (env : Env)
    (self : DataAnalystAgent) (file_path m : string) :
  parse env file_path (extension file_path) = Some (Ok (Text "", m)) ->
  let self' := snd (load_document env self file_path) in
  fst (load_document env self file_path) = mkLoadResult "success" m
  /\ text_content self' = Some ""
  /\ (data self = None -> get_data_summary self' = SummaryText 0 0 "")
  /\ context_of env self'
     = context_of env
         (mkAgent (data self) None (image_content self)
            (analysis_history self) (model self))
  /\ context_of env self'
     = match data self with
       | Some df =>
           "Dataset Info: " ++ df_to_string env (head df) ++ nl
           ++ "Shape: " ++ str_of_shape (shape df) ++ nl
       | None => ""
       end
       ++ match image_content self with
          | Some b64 =>
              if truthy b64
              then "Image content is available but cannot be displayed in text form."
                   ++ nl
              else ""
          | None => ""
          end.
Proof.
  intros Hp self'; subst self'.
  rewrite load_document_parse, Hp; simpl.
  repeat split.
  - intros Hd; unfold get_data_summary; simpl; rewrite Hd; reflexivity.
  - unfold context_of; simpl.
    destruct (data self) as [df|]; destruct (image_content self) as [b|];
      try destruct (truthy b);
      rewrite ?str_append_assoc, ?str_append_nil_r; reflexivity.
Qed.

Lemma empty_text_summary_without_segment_witness :
  get_data_summary
    (snd (load_document (Sample.env Sample.echo) Sample.fresh
            "/tmp/empty.txt"))
  = SummaryText 0 0 "".
Proof.
  apply (@empty_text_summary_without_segment (Sample.env Sample.echo)
           Sample.fresh "/tmp/empty.txt" "Text file loaded successfully.");
    reflexivity.
Defined.

(** C10 as stated fails: a table is loaded, then an empty text; the load of
    the text succeeds and the empty text is held, yet the summary is that
    of the table, not a text summary. *)
Lemma empty_text_counterexample :
  let env := Sample.env Sample.echo in
  let loadA := load_document env Sample.fresh "/tmp/sales.csv" in
  let loadB := load_document env (snd loadA) "/tmp/empty.txt" in
  fst loadB = mkLoadResult "success" "Text file loaded successfully."
  /\ text_content (snd loadB) = Some ""
  /\ get_data_summary (snd loadB)
     = get_data_summary (set_data Sample.fresh Sample.sales)
  /\ get_data_summary (snd loadB) <> SummaryText 0 0 ""
  /\ context_of env (snd loadB)
     = context_of env (set_data Sample.fresh Sample.sales).
Proof.
  cbv zeta; repeat split; try reflexivity; vm_compute; discriminate.
Qed.

(** ** Visualizations *)





(** ** Questions *)

Lemma fold_left_append_map (A B : Type) (f : A -> B) (l : list A)
    (acc : list B) :
  fold_left (fun acc x => (acc ++ [f x])%list) l acc = (acc ++ map f l)%list.
Proof.
  revert acc; induction l as [|x l IH]; intros acc; simpl.
  - rewrite app_nil_r; reflexivity.
  - rewrite IH, <- app_assoc; reflexivity.
Qed.

Lemma rebuild_turns (history : list ChatTurn) :
  map (fun message => mkChatTurn (role message) (content message)) history
  = history.
Proof.
  induction history as [|[r c] history IH]; simpl; [reflexivity|].
  rewrite IH; reflexivity.
Qed.

Lemma messages_of_history (context question : string)
    (history : list ChatTurn) :
  messages_of context question (Some history)
  = (history
     ++ [mkChatTurn "user"
           ("Context: " ++ context ++ nl ++ "Question: " ++ question)])%list.
Proof.
  unfold messages_of; destruct history as [|m history]; [reflexivity|].
  rewrite fold_left_append_map, rebuild_turns; reflexivity.
Qed.

Lemma missing_content_answer (response : Response) :
  missing_content response = negb (truthy (llm_answer_of response)).
Proof.
  unfold missing_content, llm_answer_of.
  destruct (resp_choices response) as [[|choice0 choices]|]; try reflexivity.
  destruct (choice_message choice0) as [message|]; try reflexivity.
  destruct (msg_content message) as [[|c content]|]; reflexivity.
Qed.

(** What [answer_question] does with each outcome of the service. *)
Lemma answer_question_cases (env : Env) (self : DataAnalystAgent)
    (question : string) (chat_history : option (list ChatTurn)) :
  match completions_create env (request_of env self question chat_history) with
  | Ok response =>
      let llm_answer :=
        if missing_content response
        then "Error: Could not parse LLM response."
        else llm_answer_of response in
      answer_question env self question chat_history
      = (AnswerOk llm_answer "No specific quantitative data extracted.",
         append_history self
           (mkRecord question llm_answer (context_of env self)))
  | Raise e =>
      answer_question env self question chat_history
      = (AnswerError ("Error answering question: " ++ e), self)
  end.
Proof.
  unfold answer_question.
  destruct (completions_create env
              (request_of env self question chat_history)) as [response|e];
    [|reflexivity].
  rewrite missing_content_answer; reflexivity.
Qed.

(** C6: [answer_question] calls the completion service once, with the
    request whose messages are the turns of the history, in order and
    unchanged, followed by one turn of role "user" whose content is
    "Context: ", the context, a line feed, "Question: " and the question;
    what it returns and records is what the service answers to that
    request.  With an empty history, or none, that turn is the only
    message. *)
Theorem answer_question_messages (env : Env) (self : DataAnalystAgent)
    (question : string) (history : list ChatTurn) :
  let final :=
    mkChatTurn "user"
      ("Context: " ++ context_of env self ++ nl ++ "Question: " ++ question) in
  let request := mkRequest (model self) (history ++ [final])%list 1000 in
  let outcome (request : Request) :=
    match completions_create env request with
    | Ok response =>
        let llm_answer :=
          if missing_content response
          then "Error: Could not parse LLM response."
          else llm_answer_of response in
        (AnswerOk llm_answer "No specific quantitative data extracted.",
         append_history self
           (mkRecord question llm_answer (context_of env self)))
    | Raise e => (AnswerError ("Error answering question: " ++ e), self)
    end in
  answer_question env self question (Some history) = outcome request
  /\ answer_question env self question (Some [])
     = outcome (mkRequest (model self) [final] 1000)
  /\ answer_question env self question None
     = outcome (mkRequest (model self) [final] 1000)
  /\ List.length (history ++ [final])%list = S (List.length history)
  /\ request_of env self question (Some history) = request
  /\ req_messages (request_of env self question (Some [])) = [final]
  /\ List.length (req_messages (request_of env self question (Some []))) = 1
  /\ req_messages (request_of env self question None) = [final]
  /\ (forall service service' : Request -> Exc Response,
         service request = service' request ->
         answer_question (with_service env service) self question
           (Some history)
         = answer_question (with_service env service') self question
             (Some history)).
Proof.
  intros final request outcome.
  assert (E : request_of env self question (Some history) = request).
  { unfold request_of; rewrite messages_of_history; reflexivity. }
  assert (O : forall chat_history,
             answer_question env self question chat_history
             = outcome (request_of env self question chat_history)).
  { intros chat_history.
    pose proof (answer_question_cases env self question chat_history) as H.
    unfold outcome.
    destruct (completions_create env
                (request_of env self question chat_history));
      exact H. }
  split; [rewrite O, E; reflexivity|].
  split; [rewrite O; reflexivity|].
  split; [rewrite O; reflexivity|].
  split; [rewrite length_app; simpl; lia|].
  repeat split; try reflexivity; try exact E.
  intros service service' Hs.
  unfold answer_question.
  change (request_of (with_service env service) self question (Some history))
    with (request_of env self question (Some history)).
  change (request_of (with_service env service') self question (Some history))
    with (request_of env self question (Some history)).
  rewrite E; simpl; rewrite Hs; reflexivity.
Qed.

Lemma answer_question_messages_witness :
  answer_question (Sample.env Sample.echo) Sample.fresh "And Y?"
    (Some [mkChatTurn "user" "What is X?"; mkChatTurn "assistant" "42"])
  = (AnswerOk ("Context: " ++ nl ++ "Question: And Y?")
       "No specific quantitative data extracted.",
     append_history Sample.fresh
       (mkRecord "And Y?" ("Context: " ++ nl ++ "Question: And Y?") ""))
  /\ answer_question
       (with_service (Sample.env Sample.echo) Sample.echo)
       Sample.fresh "And Y?"
       (Some [mkChatTurn "user" "What is X?"; mkChatTurn "assistant" "42"])
     = answer_question
         (with_service (Sample.env Sample.echo) Sample.echo_third)
         Sample.fresh "And Y?"
         (Some [mkChatTurn "user" "What is X?"; mkChatTurn "assistant" "42"]).
Proof.
  split.
  - rewrite (proj1 (answer_question_messages (Sample.env Sample.echo)
                      Sample.fresh "And Y?"
                      [mkChatTurn "user" "What is X?"; mkChatTurn "assistant" "42"])).
    reflexivity.
  - apply (proj2 (proj2 (proj2 (proj2 (proj2 (proj2 (proj2 (proj2
             (answer_question_messages (Sample.env Sample.echo)
                Sample.fresh "And Y?"
                [mkChatTurn "user" "What is X?"; mkChatTurn "assistant" "42"]))))))))).
    reflexivity.
Defined.

(** C2, as the code has it: when the service returns a response that lacks
    the answer (no choices, no message, or no content), [answer_question]
    returns an answer, not an error, and the answer is the fixed string
    "Error: Could not parse LLM response." *)
Theorem answer_question_unparsed (env : Env) (self : DataAnalystAgent)
    (question : string) (chat_history : option (list ChatTurn))
    (response : Response) :
  completions_create env (request_of env self question chat_history)
  = Ok response ->
  missing_content response = true ->
  fst (answer_question env self question chat_history)
  = AnswerOk "Error: Could not parse LLM response."
      "No specific quantitative data extracted.".
Proof.
  intros Hs Hm.
  pose proof (answer_question_cases env self question chat_history) as H.
  rewrite Hs in H; cbv zeta in H; rewrite Hm in H; rewrite H; reflexivity.
Qed.

Lemma answer_question_unparsed_witness :
  fst (answer_question (Sample.env Sample.no_choices) Sample.fresh
         "What is X?" (Some []))
  = AnswerOk "Error: Could not parse LLM response."
      "No specific quantitative data extracted.".
Proof.
  apply (@answer_question_unparsed (Sample.env Sample.no_choices)
           Sample.fresh "What is X?" (Some []) (mkResponse (Some [])));
    reflexivity.
Defined.

(** C2 as stated fails: the service returns an empty list of choices, and
    the answer is not "Could not parse response". *)
Lemma sentinel_counterexample :
  let env := Sample.env Sample.no_choices in
  let response := mkResponse (Some []) in
  completions_create env
    (request_of env Sample.fresh "What is X?" (Some []))
  = Ok response
  /\ missing_content response = true
  /\ fst (answer_question env Sample.fresh "What is X?" (Some []))
     = AnswerOk "Error: Could not parse LLM response."
         "No specific quantitative data extracted."
  /\ forall quantitative,
      fst (answer_question env Sample.fresh "What is X?" (Some []))
      <> AnswerOk "Could not parse response" quantitative.
Proof.
  cbv zeta; repeat split; try reflexivity.
  intros quantitative; vm_compute; discriminate.
Qed.

(** C3: when the call to the service raises, [answer_question] returns an
    error made of the exception's message and the agent, with its history,
    is unchanged; when [answer_question] returns an answer, the history of
    the agent is the former history followed by the one record of the
    question, that answer and the context, and nothing else has changed.
    A response of the service, whatever it is, gives an answer. *)
Theorem answer_question_history (env : Env) (self : DataAnalystAgent)
    (question : string) (chat_history : option (list ChatTurn)) :
  (forall e,
      completions_create env (request_of env self question chat_history)
      = Raise e ->
      answer_question env self question chat_history
      = (AnswerError ("Error answering question: " ++ e), self))
  /\ (forall llm_answer quantitative self',
         answer_question env self question chat_history
         = (AnswerOk llm_answer quantitative, self') ->
         analysis_history self'
         = (analysis_history self
            ++ [mkRecord question llm_answer (context_of env self)])%list
         /\ List.length (analysis_history self')
            = S (List.length (analysis_history self))
         /\ self'
            = append_history self
                (mkRecord question llm_answer (context_of env self)))
  /\ (forall response,
         completions_create env (request_of env self question chat_history)
         = Ok response ->
         exists llm_answer quantitative self',
           answer_question env self question chat_history
           = (AnswerOk llm_answer quantitative, self')).
Proof.
  pose proof (answer_question_cases env self question chat_history) as H.
  destruct (completions_create env
              (request_of env self question chat_history)) as [response|e0].
  - cbv zeta in H; rewrite H.
    split; [discriminate|split].
    + intros llm_answer quantitative self' [= <- _ <-].
      repeat split; simpl.
      rewrite length_app; simpl; lia.
    + intros response' _; eauto.
  - rewrite H.
    split; [|split].
    + intros e [= <-]; reflexivity.
    + discriminate.
    + discriminate.
Qed.

Lemma answer_question_history_witness :
  answer_question (Sample.env Sample.unreachable) Sample.fresh "What is X?"
    None
  = (AnswerError "Error answering question: Connection error.", Sample.fresh)
  /\ analysis_history
       (snd (answer_question (Sample.env Sample.no_choices) Sample.fresh
               "What is X?" None))
     = [mkRecord "What is X?" "Error: Could not parse LLM response." ""].
Proof.
  split.
  - apply (proj1 (answer_question_history (Sample.env Sample.unreachable)
                    Sample.fresh "What is X?" None)).
    reflexivity.
  - apply (proj1 (proj1 (proj2
             (answer_question_history (Sample.env Sample.no_choices)
                Sample.fresh "What is X?" None))
             "Error: Could not parse LLM response."
             "No specific quantitative data extracted."
             (snd (answer_question (Sample.env Sample.no_choices)
                     Sample.fresh "What is X?" None))
             eq_refl)).
Defined.

(** * Further properties of the agent *)

(** ** Construction *)

(** X1: [init] raises for the empty key and for no other; the agent it
    builds holds no payload and no history, so its summary is the error
    'No data loaded.', its visualizations the single error
    'No data loaded for visualization.', and its context the empty
    string. *)
Theorem init_cases (api_key : string) :
  (api_key = "" ->
   init api_key
   = Raise "TOGETHER_API_KEY not found in .env file or provided")
  /\ (api_key <> "" ->
      exists self,
        init api_key = Ok self
        /\ data self = None /\ text_content self = None
        /\ image_content self = None /\ analysis_history self = []
        /\ get_data_summary self = SummaryError "No data loaded."
        /\ create_visualizations self
           = [VizError "No data loaded for visualization."]
        /\ forall env, context_of env self = "").
Proof.
  split.
  - intros ->; reflexivity.
  - intros Hk; destruct api_key as [|c k]; [contradiction|].
    eexists; repeat split.
Qed.

Lemma init_cases_witness :
  exists self, init "secret" = Ok self /\ analysis_history self = [].
Proof.
  destruct (proj2 (init_cases "secret")) as [self H].
  - discriminate.
  - exists self; split; [apply H|apply H].
Defined.

(** ** Summaries *)

(** X2: [get_data_summary] is an error exactly when the agent holds no
    payload at all, and the error is then 'No data loaded.'. *)
Theorem get_data_summary_error (self : DataAnalystAgent) :
  ((exists e, get_data_summary self = SummaryError e) <->
   (data self = None /\ text_content self = None
    /\ image_content self = None))
  /\ (forall e, get_data_summary self = SummaryError e ->
      e = "No data loaded.").
Proof.
  unfold get_data_summary.
  destruct (data self) as [df|]; destruct (text_content self) as [t|];
    destruct (image_content self) as [b|];
    (split; [split|]);
    try (intros [e He]; discriminate He);
    try (intros (H1 & H2 & H3); discriminate);
    try (intros e He; discriminate He).
  - intros _; auto.
  - intros _; eexists; reflexivity.
  - intros e [= <-]; reflexivity.
Qed.

Lemma get_data_summary_error_witness :
  get_data_summary Sample.fresh = SummaryError "No data loaded.".
Proof.
  destruct (proj2 (proj1 (get_data_summary_error Sample.fresh))) as [e He].
  - repeat split.
  - rewrite He; f_equal.
    apply (proj2 (get_data_summary_error Sample.fresh) e He).
Defined.

Lemma null_counts_names (cols : list Column) (rs : list (list Cell))
    (j : nat) :
  map fst (null_counts j cols rs) = map col_name cols.
Proof.
  revert j; induction cols as [|c cols IH]; intros j; simpl;
    [reflexivity|rewrite IH; reflexivity].
Qed.

Lemma null_counts_bound (cols : list Column) (rs : list (list Cell))
    (j : nat) :
  Forall (fun p => snd p <= List.length rs) (null_counts j cols rs).
Proof.
  revert j; induction cols as [|c cols IH]; intros j; simpl; constructor.
  - simpl; unfold null_count; apply filter_length_le.
  - apply IH.
Qed.

(** X3: the summary of a table gives the numbers of rows and columns, one
    missing-value count and one dtype per column, in column order, each
    count at most the number of rows, and as sample the records of the
    first five rows (all of them when there are fewer). *)
Theorem get_data_summary_tabular (self : DataAnalystAgent) (df : DataFrame) :
  data self = Some df ->
  exists missing_values dtypes sample_data,
    get_data_summary self
    = SummaryStructured (List.length (rows df), List.length (columns df))
        missing_values dtypes sample_data
    /\ map fst missing_values = map col_name (columns df)
    /\ Forall (fun p => snd p <= List.length (rows df)) missing_values
    /\ dtypes
       = map (fun c => (col_name c, dtype_str (col_dtype c))) (columns df)
    /\ sample_data = firstn 5 (to_dict_records df)
    /\ List.length sample_data = Nat.min 5 (List.length (rows df)).
Proof.
  intros Hd; unfold get_data_summary; rewrite Hd.
  eexists _, _, _; split; [reflexivity|].
  repeat split.
  - apply null_counts_names.
  - apply null_counts_bound.
  - unfold to_dict_records, head; cbn [columns rows]; symmetry;
    apply firstn_map.
  - unfold to_dict_records, head; cbn [columns rows].
    rewrite length_map, length_firstn; reflexivity.
Qed.

Lemma get_data_summary_tabular_witness :
  exists missing_values dtypes sample_data,
    get_data_summary (set_data Sample.fresh Sample.sales)
    = SummaryStructured (10, 3) missing_values dtypes sample_data
    /\ List.length sample_data = 5.
Proof.
  destruct (@get_data_summary_tabular (set_data Sample.fresh Sample.sales)
              Sample.sales eq_refl)
    as (m & d & s & H1 & _ & _ & _ & _ & H6).
  exists m, d, s; split; [exact H1|exact H6].
Defined.

Lemma token_starts_bound (s : string) (after_space : bool) :
  2 * token_starts after_space s
  <= String.length s + (if after_space then 1 else 0).
Proof.
  revert after_space; induction s as [|c s IH]; intros b; simpl; [lia|].
  specialize (IH (isspace c)).
  destruct b, (isspace c); simpl in *; lia.
Qed.

Lemma token_count_zero (s : string) :
  token_count s = 0 <-> all_space s = true.
Proof.
  unfold token_count; induction s as [|c s IH]; simpl; [tauto|].
  destruct (isspace c); simpl; [exact IH|].
  split; [lia|discriminate].
Qed.

Lemma slice_to_all (n : nat) (s : string) :
  String.length s <= n -> slice_to n s = s.
Proof.
  unfold slice_to; revert s; induction n as [|n IH]; intros [|c s]; simpl;
    intros H; try reflexivity; try lia.
  rewrite IH by lia; reflexivity.
Qed.

(** X4: in the summary of a text, the word count is at most half the
    length (rounded up) and is zero exactly when the text is empty or all
    whitespace; the preview has at most 500 characters and is the whole
    text when the text has at most 500. *)
Theorem get_data_summary_text_bounds (self : DataAnalystAgent) (t : string) :
  data self = None ->
  text_content self = Some t ->
  exists length word_count preview,
    get_data_summary self = SummaryText length word_count preview
    /\ 2 * word_count <= length + 1
    /\ (word_count = 0 <-> all_space t = true)
    /\ String.length preview <= 500
    /\ (length <= 500 -> preview = t).
Proof.
  intros Hd Ht; unfold get_data_summary; rewrite Hd, Ht, split_length.
  eexists _, _, _; split; [reflexivity|].
  repeat split.
  - pose proof (token_starts_bound t true) as H; unfold token_count; simpl in H.
    lia.
  - apply token_count_zero.
  - apply token_count_zero.
  - rewrite slice_to_length; lia.
  - apply slice_to_all.
Qed.

Lemma get_data_summary_text_bounds_witness :
  exists length word_count preview,
    get_data_summary (set_text_content Sample.fresh "   ")
    = SummaryText length word_count preview
    /\ word_count = 0.
Proof.
  destruct (@get_data_summary_text_bounds
              (set_text_content Sample.fresh "   ") "   " eq_refl eq_refl)
    as (n & w & p & H1 & _ & H3 & _).
  exists n, w, p; split; [exact H1|apply H3; reflexivity].
Defined.

Lemma concat_empty_cons (x : string) (xs : list string) :
  String.concat "" (x :: xs) = x ++ String.concat "" xs.
Proof.
  destruct xs as [|y ys]; simpl; [rewrite str_append_nil_r|]; reflexivity.
Qed.

Lemma no_space_append_char (tok : string) (c : ascii) :
  no_space tok = true -> isspace c = false ->
  no_space (tok ++ String c "") = true.
Proof.
  intros Ht Hc; induction tok as [|d tok IH]; simpl in *.
  - rewrite Hc; reflexivity.
  - apply andb_prop in Ht as [Hd Ht]; rewrite Hd, IH by exact Ht; reflexivity.
Qed.

Lemma split_from_tokens (s tok : string) :
  no_space tok = true ->
  String.concat "" (split_from tok s) = tok ++ without_spaces s
  /\ Forall (fun w => truthy w = true /\ no_space w = true)
       (split_from tok s).
Proof.
  revert tok; induction s as [|c s IH]; intros tok Ht; simpl.
  - destruct tok as [|d tok]; simpl; split; try constructor; auto.
    rewrite str_append_nil_r; reflexivity.
  - destruct (isspace c) eqn:Ec.
    + destruct (IH "" eq_refl) as [IH1 IH2].
      destruct tok as [|d tok]; simpl truthy; cbv iota.
      * split; [exact IH1|exact IH2].
      * rewrite concat_empty_cons, IH1; split; [reflexivity|].
        constructor; [split; [reflexivity|exact Ht]|exact IH2].
    + destruct (IH (tok ++ String c "")
                  (no_space_append_char tok c Ht Ec)) as [IH1 IH2].
      split; [|exact IH2].
      rewrite IH1, str_append_assoc; reflexivity.
Qed.

(** X5: the words that the summary of a text counts are non-empty, contain
    no whitespace, and joined together are the text without its
    whitespace; so every character that is not whitespace belongs to
    exactly one counted word. *)
Theorem word_count_tokens (self : DataAnalystAgent) (t : string) :
  data self = None ->
  text_content self = Some t ->
  exists words,
    get_data_summary self
    = SummaryText (String.length t) (List.length words) (slice_to 500 t)
    /\ String.concat "" words = without_spaces t
    /\ Forall (fun w => truthy w = true /\ no_space w = true) words.
Proof.
  intros Hd Ht; exists (split t).
  unfold get_data_summary; rewrite Hd, Ht; split; [reflexivity|].
  apply (split_from_tokens t "" eq_refl).
Qed.

Lemma word_count_tokens_witness :
  exists words,
    get_data_summary (set_text_content Sample.fresh "Hello world")
    = SummaryText 11 (List.length words) "Hello world"
    /\ String.concat "" words = "Helloworld".
Proof.
  destruct (@word_count_tokens
              (set_text_content Sample.fresh "Hello world") "Hello world"
              eq_refl eq_refl)
    as (ws & H1 & H2 & _).
  exists ws; split; [exact H1|exact H2].
Defined.

(** ** Visualizations *)

Lemma numeric_columns_nil (df : DataFrame) :
  numeric_columns df = [] <-> no_numbers (columns df) = true.
Proof.
  unfold numeric_columns, no_numbers.
  induction (columns df) as [|c cols IH]; simpl; [tauto|].
  destruct (is_number (col_dtype c)); simpl; [|exact IH].
  split; discriminate.
Qed.

(** X6: the result of [create_visualizations] contains an error entry
    exactly when the agent holds no table or the table has no numeric
    column; the error is then the only entry, and its text is one of the
    two fixed messages. *)
Theorem create_visualizations_error (self : DataAnalystAgent) :
  ((exists e, In (VizError e) (create_visualizations self)) <->
   (data self = None
    \/ exists df, data self = Some df /\ no_numbers (columns df) = true))
  /\ (forall e, In (VizError e) (create_visualizations self) ->
      create_visualizations self = [VizError e]
      /\ (e = "No data loaded for visualization."
          \/ e = "No numeric columns to visualize.")).
Proof.
  unfold create_visualizations.
  destruct (data self) as [df|].
  - pose proof (numeric_columns_nil df) as Hn.
    destruct (numeric_columns df) as [|c1 [|c2 rest]]; simpl.
    + split.
      * split; [intros _; right; exists df; split; [reflexivity|]|eauto].
        apply Hn; reflexivity.
      * intros e [[= <-]|[]]; auto.
    + split.
      * split.
        -- intros [e [H|[]]]; discriminate H.
        -- intros [H|(df' & [= <-] & H)]; [discriminate|].
           apply Hn in H; discriminate.
      * intros e [H|[]]; discriminate H.
    + split.
      * split.
        -- intros [e [H|[H|[]]]]; discriminate H.
        -- intros [H|(df' & [= <-] & H)]; [discriminate|].
           apply Hn in H; discriminate.
      * intros e [H|[H|[]]]; discriminate H.
  - simpl; split.
    + split; eauto.
    + intros e [[= <-]|[]]; auto.
Qed.

Lemma create_visualizations_error_witness :
  create_visualizations (set_text_content Sample.fresh "Hello world")
  = [VizError "No data loaded for visualization."].
Proof.
  apply (proj2 (create_visualizations_error
                  (set_text_content Sample.fresh "Hello world"))
           "No data loaded for visualization.").
  left; reflexivity.
Defined.

Lemma numeric_columns_In (df : DataFrame) (x : string) :
  In x (numeric_columns df) ->
  exists c, In c (columns df) /\ col_name c = x
            /\ is_number (col_dtype c) = true.
Proof.
  unfold numeric_columns; intros H.
  apply in_map_iff in H as (c & Hc & Hin).
  apply filter_In in Hin as [Hin Hnum].
  exists c; auto.
Qed.

(** X7: every chart that [create_visualizations] returns is drawn from the
    table the agent holds, carries the title of its entry, and plots only
    columns of that table whose dtype is numeric. *)
Theorem create_visualizations_figures (self : DataAnalystAgent)
    (df : DataFrame) (title : string) (figure : Figure) (insights : string) :
  data self = Some df ->
  In (Viz title figure insights) (create_visualizations self) ->
  figure_data figure = df
  /\ figure_title figure = title
  /\ Forall (fun x => exists c, In c (columns df) /\ col_name c = x
                                /\ is_number (col_dtype c) = true)
       (figure_columns figure).
Proof.
  intros Hd; unfold create_visualizations; rewrite Hd.
  pose proof (numeric_columns_In df) as Hin.
  destruct (numeric_columns df) as [|c1 [|c2 rest]]; simpl.
  - intros [H|[]]; discriminate H.
  - intros [[= <- <- <-]|[]]; simpl; repeat split.
    constructor; [apply Hin; simpl; auto|constructor].
  - intros [[= <- <- <-]|[[= <- <- <-]|[]]]; simpl; repeat split.
    + constructor; [apply Hin; simpl; auto|constructor].
    + constructor; [apply Hin; simpl; auto|].
      constructor; [apply Hin; simpl; auto|constructor].
Qed.

Lemma create_visualizations_figures_witness :
  figure_data (px_scatter Sample.sales "amount" "qty"
                 "Scatter Plot: amount vs qty")
  = Sample.sales.
Proof.
  apply (@create_visualizations_figures
           (set_data Sample.fresh Sample.sales) Sample.sales
           "Scatter Plot: amount vs qty"
           (px_scatter Sample.sales "amount" "qty"
              "Scatter Plot: amount vs qty")
           "This scatter plot shows the relationship between amount and qty."
           eq_refl).
  right; left; reflexivity.
Defined.

(** ** Loading, once more *)

Lemma store_frame (self : DataAnalystAgent) (d : Document) :
  analysis_history (store self d) = analysis_history self
  /\ model (store self d) = model self.
Proof. destruct d; split; reflexivity. Qed.

Lemma load_document_frame (env : Env) (self : DataAnalystAgent)
    (file_path : string) :
  analysis_history (snd (load_document env self file_path))
  = analysis_history self
  /\ model (snd (load_document env self file_path)) = model self.
Proof.
  rewrite load_document_parse.
  destruct (parse env file_path (extension file_path)) as [[[d m]|e]|];
    simpl; auto.
  apply store_frame.
Qed.

(** X8: the status of a load is "success" or "error".  On success exactly
    the payload of one variant has been replaced by the loaded document and
    the two others are as before; on error the agent is unchanged.  In both
    cases the history and the model name are untouched. *)
Theorem load_document_status (env : Env) (self : DataAnalystAgent)
    (file_path : string) :
  let result := fst (load_document env self file_path) in
  let self' := snd (load_document env self file_path) in
  ((status result = "success"
    /\ exists d, self' = store self d
                 /\ stored self' (variant d) = Some d
                 /\ forall v, v <> variant d -> stored self' v = stored self v)
   \/ (status result = "error" /\ self' = self))
  /\ analysis_history self' = analysis_history self
  /\ model self' = model self.
Proof.
  cbv zeta; rewrite load_document_parse.
  destruct (parse env file_path (extension file_path)) as [[[d m]|e]|];
    simpl; split; auto.
  - left; split; [reflexivity|exists d; repeat split].
    + apply stored_store_same.
    + intros v Hv; apply stored_store_other; exact Hv.
  - apply store_frame.
Qed.

Lemma load_document_status_witness :
  status (fst (load_document (Sample.env Sample.echo) Sample.fresh
                 "/tmp/broken.csv"))
  = "error"
  /\ snd (load_document (Sample.env Sample.echo) Sample.fresh
            "/tmp/broken.csv")
     = Sample.fresh.
Proof.
  destruct (proj1 (load_document_status (Sample.env Sample.echo)
                     Sample.fresh "/tmp/broken.csv"))
    as [[H _]|H].
  - discriminate H.
  - exact H.
Defined.

(** X9: loading the same path a second time returns the same result and
    leaves the agent as the first load left it. *)
Theorem load_document_idempotent (env : Env) (self : DataAnalystAgent)
    (file_path : string) :
  load_document env (snd (load_document env self file_path)) file_path
  = load_document env self file_path.
Proof.
  rewrite !load_document_parse.
  destruct (parse env file_path (extension file_path)) as [[[d m]|e]|];
    simpl; try reflexivity.
  destruct d; reflexivity.
Qed.

(** X10: two successful loads of documents of different variants commute:
    the agent holds both documents whichever was loaded first. *)
Theorem load_document_commute (env : Env) (self : DataAnalystAgent)
    (pathA pathB : string) (dA dB : Document) (mA mB : string) :
  parse env pathA (extension pathA) = Some (Ok (dA, mA)) ->
  parse env pathB (extension pathB) = Some (Ok (dB, mB)) ->
  variant dA <> variant dB ->
  snd (load_document env (snd (load_document env self pathA)) pathB)
  = snd (load_document env (snd (load_document env self pathB)) pathA)
  /\ stored (snd (load_document env (snd (load_document env self pathA))
                    pathB)) (variant dA) = Some dA
  /\ stored (snd (load_document env (snd (load_document env self pathA))
                    pathB)) (variant dB) = Some dB.
Proof.
  intros HA HB Hv.
  repeat (progress (rewrite ?load_document_parse, ?HA, ?HB; simpl)).
  destruct dA, dB; simpl; repeat split; exfalso; apply Hv; reflexivity.
Qed.

Lemma load_document_commute_witness :
  snd (load_document (Sample.env Sample.echo)
         (snd (load_document (Sample.env Sample.echo) Sample.fresh
                 "/tmp/sales.csv"))
         "/tmp/logo.png")
  = snd (load_document (Sample.env Sample.echo)
           (snd (load_document (Sample.env Sample.echo) Sample.fresh
                   "/tmp/logo.png"))
           "/tmp/sales.csv").
Proof.
  apply (@load_document_commute (Sample.env Sample.echo) Sample.fresh
           "/tmp/sales.csv" "/tmp/logo.png"
           (Tabular Sample.sales) (Image "TWFuTQ==")
           "Data loaded successfully. Shape: (10, 3)"
           "Image file loaded successfully.");
    [reflexivity|reflexivity|discriminate].
Defined.

Lemma pdf_texts_all_ok (texts : list string) :
  pdf_texts (map Ok texts) = Ok (filter truthy texts).
Proof.
  induction texts as [|t texts IH]; simpl; [reflexivity|].
  rewrite IH; simpl; destruct (truthy t); reflexivity.
Qed.

Lemma pdf_texts_first_raise (texts : list string) (e : string)
    (pages : list (Exc string)) :
  pdf_texts (map Ok texts ++ Raise e :: pages)%list = Raise e.
Proof. induction texts as [|t texts IH]; simpl; [|rewrite IH]; reflexivity. Qed.

(** X11: for a PDF whose pages all extract, the stored text is the texts of
    the pages that have some, in page order, joined by line feeds; pages
    with no text leave no empty line.  If a page raises, the load fails
    with the message of the first page that does and nothing is stored. *)
Theorem load_document_pdf (env : Env) (self : DataAnalystAgent)
    (file_path : string) :
  extension file_path = ".pdf" ->
  (forall texts,
      pdf_PdfReader env file_path = Ok (map Ok texts) ->
      load_document env self file_path
      = (mkLoadResult "success" "PDF file loaded successfully.",
         set_text_content self (join nl (filter truthy texts))))
  /\ (forall texts e pages,
         pdf_PdfReader env file_path
         = Ok (map Ok texts ++ Raise e :: pages)%list ->
         load_document env self file_path
         = (mkLoadResult "error" ("Error loading file: " ++ e), self)).
Proof.
  intros He; split.
  - intros texts Hr; rewrite load_document_parse, He; simpl.
    rewrite Hr; simpl; rewrite pdf_texts_all_ok; reflexivity.
  - intros texts e pages Hr; rewrite load_document_parse, He; simpl.
    rewrite Hr; simpl; rewrite pdf_texts_first_raise; reflexivity.
Qed.

Lemma load_document_pdf_witness :
  text_content
    (snd (load_document (Sample.env Sample.echo) Sample.fresh
            "/tmp/paper.pdf"))
  = Some ("Page one" ++ nl ++ "Page three").
Proof.
  rewrite (proj1 (@load_document_pdf (Sample.env Sample.echo) Sample.fresh
                    "/tmp/paper.pdf" eq_refl)
             ["Page one"; ""; "Page three"] eq_refl).
  reflexivity.
Defined.

(** ** Images *)

Lemma b64_digit_ok (n : N) : is_b64_char (b64_digit n) = true.
Proof.
  unfold b64_digit.
  destruct (N.to_nat n) as [|k] eqn:E; [reflexivity|].
  do 63 (destruct k as [|k]; [reflexivity|]).
  reflexivity.
Qed.

Lemma b64encode_spec_3 (n : nat) :
  forall bs, List.length bs < n ->
  String.length (b64encode bs) = 4 * ((List.length bs + 2) / 3)
  /\ all_b64 (b64encode bs) = true.
Proof.
  induction n as [|n IH]; intros bs Hl; [lia|].
  destruct bs as [|a [|b [|c rest]]].
  - split; reflexivity.
  - cbn [b64encode String.length all_b64 List.length].
    rewrite !b64_digit_ok; split; reflexivity.
  - cbn [b64encode String.length all_b64 List.length].
    rewrite !b64_digit_ok; split; reflexivity.
  - cbn [b64encode String.length all_b64 List.length] in *.
    destruct (IH rest ltac:(lia)) as [IH1 IH2].
    rewrite !b64_digit_ok, IH1, IH2; split; [|reflexivity].
    replace (S (S (S (List.length rest))) + 2)
      with (List.length rest + 2 + 1 * 3) by lia.
    rewrite Nat.div_add by lia; lia.
Qed.

(** X12: after a successful load of an image file of [n] bytes, the stored
    payload is a base64 text of 4 * ceil(n / 3) characters, all of them
    letters, digits, "+", "/" or "="; it is the empty string exactly when
    the file is empty, and only then does the context of a question lack
    the sentence about the image. *)
Theorem load_document_image (env : Env) (self : DataAnalystAgent)
    (file_path : string) (bytes : list byte) :
  str_in (extension file_path) [".png"; ".jpg"; ".jpeg"] = true ->
  open_read_bytes env file_path = Ok bytes ->
  exists b64,
    load_document env self file_path
    = (mkLoadResult "success" "Image file loaded successfully.",
       set_image_content self b64)
    /\ String.length b64 = 4 * ((List.length bytes + 2) / 3)
    /\ all_b64 b64 = true
    /\ (b64 = "" <-> bytes = [])
    /\ (bytes <> [] ->
        exists before,
          context_of env (set_image_content self b64)
          = before
            ++ "Image content is available but cannot be displayed in text form."
            ++ nl).
Proof.
  intros He Hr; exists (b64encode bytes).
  destruct (b64encode_spec_3 (n := S (List.length bytes)) bytes
              (Nat.lt_succ_diag_r _)) as [Hlen Hall].
  repeat split; try assumption.
  - unfold load_document; fold (extension file_path).
    unfold str_in, existsb in He |- *.
    destruct (extension file_path =? ".csv") eqn:E1;
      [apply String.eqb_eq in E1; rewrite E1 in He; discriminate|].
    destruct (extension file_path =? ".xlsx") eqn:E2;
      [apply String.eqb_eq in E2; rewrite E2 in He; discriminate|].
    destruct (extension file_path =? ".txt") eqn:E3;
      [apply String.eqb_eq in E3; rewrite E3 in He; discriminate|].
    destruct (extension file_path =? ".docx") eqn:E4;
      [apply String.eqb_eq in E4; rewrite E4 in He; discriminate|].
    destruct (extension file_path =? ".pdf") eqn:E5;
      [apply String.eqb_eq in E5; rewrite E5 in He; discriminate|].
    simpl; rewrite He, Hr; reflexivity.
  - intros Hb; rewrite Hb in Hlen; cbn [String.length] in Hlen.
    destruct bytes as [|a bytes]; [reflexivity|exfalso].
    assert (1 <= (List.length (a :: bytes) + 2) / 3)
      by (apply Nat.div_le_lower_bound; simpl; lia).
    lia.
  - intros ->; reflexivity.
  - intros Hne.
    assert (Ht : truthy (b64encode bytes) = true).
    { destruct bytes as [|a [|b [|c rest]]]; [contradiction| | |];
        reflexivity. }
    unfold context_of; cbn [data text_content image_content set_image_content].
    rewrite Ht; eexists; reflexivity.
Qed.

Lemma load_document_image_witness :
  exists b64,
    load_document (Sample.env Sample.echo) Sample.fresh "/tmp/logo.png"
    = (mkLoadResult "success" "Image file loaded successfully.",
       set_image_content Sample.fresh b64)
    /\ String.length b64 = 8.
Proof.
  destruct (@load_document_image (Sample.env Sample.echo) Sample.fresh
              "/tmp/logo.png" [x4d; x61; x6e; x4d]%byte eq_refl eq_refl)
    as (b & H1 & H2 & _).
  exists b; split; [exact H1|exact H2].
Defined.

(** ** Questions, once more *)

(** X13: when the first choice of the response has a message with a
    non-empty content, that content is the answer, word for word; the other
    choices are ignored, and the record appended to the history holds the
    question, that content and the context. *)
Theorem answer_question_content (env : Env) (self : DataAnalystAgent)
    (question : string) (chat_history : option (list ChatTurn))
    (response : Response) (choices : list Choice) (content : string) :
  completions_create env (request_of env self question chat_history)
  = Ok response ->
  resp_choices response
  = Some (mkChoice (Some (mkMessage (Some content))) :: choices) ->
  content <> "" ->
  answer_question env self question chat_history
  = (AnswerOk content "No specific quantitative data extracted.",
     append_history self (mkRecord question content (context_of env self))).
Proof.
  intros Hs Hc Hne.
  pose proof (answer_question_cases env self question chat_history) as H.
  rewrite Hs in H; cbv zeta in H; rewrite H.
  unfold missing_content, llm_answer_of; rewrite Hc; simpl.
  destruct content as [|c content]; [contradiction|reflexivity].
Qed.

Lemma answer_question_content_witness :
  fst (answer_question (Sample.env Sample.echo) Sample.fresh "What is X?"
         None)
  = AnswerOk ("Context: " ++ nl ++ "Question: What is X?")
      "No specific quantitative data extracted.".
Proof.
  rewrite (@answer_question_content (Sample.env Sample.echo) Sample.fresh
             "What is X?" None
             (mkResponse
                (Some [mkChoice
                         (Some (mkMessage
                                  (Some ("Context: " ++ nl
                                         ++ "Question: What is X?"))))]))
             [] ("Context: " ++ nl ++ "Question: What is X?")
             eq_refl eq_refl);
    [reflexivity|discriminate].
Defined.

Lemma messages_of_last (context question : string)
    (chat_history : option (list ChatTurn)) :
  exists before,
    messages_of context question chat_history
    = (before
       ++ [mkChatTurn "user"
             ("Context: " ++ context ++ nl ++ "Question: " ++ question)])%list.
Proof.
  destruct chat_history as [history|].
  - exists history; apply messages_of_history.
  - exists []; reflexivity.
Qed.

(** X14: when a question is answered, the record appended to the history
    holds the very context and question that were sent: the last message of
    the request is the user turn "Context: " + the recorded context + line
    feed + "Question: " + the recorded question, and the recorded answer is
    the returned one. *)
Theorem answer_question_logged (env : Env) (self : DataAnalystAgent)
    (question : string) (chat_history : option (list ChatTurn))
    (llm_answer quantitative : string) (self' : DataAnalystAgent) :
  answer_question env self question chat_history
  = (AnswerOk llm_answer quantitative, self') ->
  exists r,
    analysis_history self' = (analysis_history self ++ [r])%list
    /\ rec_answer r = llm_answer
    /\ last (req_messages (request_of env self question chat_history))
         (mkChatTurn "" "")
       = mkChatTurn "user"
           ("Context: " ++ rec_context r ++ nl
            ++ "Question: " ++ rec_question r)
    /\ quantitative = "No specific quantitative data extracted.".
Proof.
  intros H.
  pose proof (answer_question_cases env self question chat_history) as Hc.
  destruct (completions_create env
              (request_of env self question chat_history)) as [response|e];
    cbv zeta in Hc; rewrite Hc in H; [|discriminate].
  injection H as <- <- <-.
  eexists; split; [reflexivity|]; simpl; repeat split.
  destruct (messages_of_last (context_of env self) question chat_history)
    as [before Hb].
  rewrite Hb; apply last_last.
Qed.

Lemma answer_question_logged_witness :
  exists r,
    analysis_history
      (snd (answer_question (Sample.env Sample.no_choices) Sample.fresh
              "What is X?" None))
    = [r]
    /\ rec_answer r = "Error: Could not parse LLM response.".
Proof.
  destruct (@answer_question_logged (Sample.env Sample.no_choices)
              Sample.fresh "What is X?" None
              "Error: Could not parse LLM response."
              "No specific quantitative data extracted."
              (snd (answer_question (Sample.env Sample.no_choices)
                      Sample.fresh "What is X?" None))
              eq_refl)
    as (r & H1 & H2 & _).
  exists r; split; [exact H1|exact H2].
Defined.

Lemma str_length_append (a b : string) :
  String.length (a ++ b) = String.length a + String.length b.
Proof. induction a as [|c a IH]; simpl; [|rewrite IH]; reflexivity. Qed.



(** ** Sequences of calls *)

Lemma calls_cons (env : Env) (self : DataAnalystAgent) (c : Call)
    (cs : list Call) :
  calls env self (c :: cs) = calls env (call env self c) cs.
Proof. reflexivity. Qed.

Lemma call_history (env : Env) (self : DataAnalystAgent) (c : Call) :
  exists appended,
    analysis_history (call env self c)
    = (analysis_history self ++ appended)%list
    /\ map rec_question appended = answered_questions env self [c]
    /\ model (call env self c) = model self.
Proof.
  destruct c as [file_path|question chat_history]; simpl.
  - exists []; rewrite app_nil_r.
    destruct (load_document_frame env self file_path) as (Hh & Hm).
    auto.
  - pose proof (answer_question_cases env self question chat_history) as H.
    destruct (completions_create env
                (request_of env self question chat_history));
      cbv zeta in H; rewrite H; simpl.
    + eexists; split; [reflexivity|split; reflexivity].
    + exists []; rewrite app_nil_r; auto.
Qed.

(** X16: the history is append-only.  After any sequence of loads and
    questions the history is the former history followed by one record per
    answered question, in the order the questions were asked; loads and
    questions that fail add nothing, no record is ever removed or changed,
    and the model name stays the same. *)
Theorem calls_history (env : Env) (cs : list Call) (self : DataAnalystAgent) :
  exists appended,
    analysis_history (calls env self cs)
    = (analysis_history self ++ appended)%list
    /\ map rec_question appended = answered_questions env self cs
    /\ model (calls env self cs) = model self.
Proof.
  revert self; induction cs as [|c cs IH]; intros self.
  - exists []; simpl; rewrite app_nil_r; auto.
  - destruct (call_history env self c) as (a1 & H1 & Q1 & M1).
    destruct (IH (call env self c)) as (a2 & H2 & Q2 & M2).
    exists (a1 ++ a2)%list; rewrite calls_cons.
    rewrite H2, H1, app_assoc, map_app, Q1, Q2, M2, M1.
    repeat split.
    simpl; rewrite app_nil_r; reflexivity.
Qed.

Lemma call_ask_payloads (env : Env) (self : DataAnalystAgent)
    (question : string) (chat_history : option (list ChatTurn)) :
  let self' := snd (answer_question env self question chat_history) in
  data self' = data self /\ text_content self' = text_content self
  /\ image_content self' = image_content self.
Proof.
  pose proof (answer_question_cases env self question chat_history) as H.
  destruct (completions_create env
              (request_of env self question chat_history));
    cbv zeta in H |- *; rewrite H; simpl; auto.
Qed.

(** X17: questions never change what is loaded and loads never change the
    history: after a sequence of questions only, the three payloads are as
    before (so the summary, the visualizations and the context are too);
    after a sequence of loads only, the history is as before. *)
Theorem calls_frame (env : Env) (cs : list Call) (self : DataAnalystAgent) :
  (forallb is_ask cs = true ->
   data (calls env self cs) = data self
   /\ text_content (calls env self cs) = text_content self
   /\ image_content (calls env self cs) = image_content self
   /\ get_data_summary (calls env self cs) = get_data_summary self
   /\ create_visualizations (calls env self cs) = create_visualizations self
   /\ context_of env (calls env self cs) = context_of env self)
  /\ (forallb (fun c => negb (is_ask c)) cs = true ->
      analysis_history (calls env self cs) = analysis_history self).
Proof.
  split.
  - intros Ha.
    assert (H : data (calls env self cs) = data self
                /\ text_content (calls env self cs) = text_content self
                /\ image_content (calls env self cs) = image_content self).
    { revert self; induction cs as [|c cs IH]; intros self; [simpl; auto|].
      simpl in Ha; apply andb_prop in Ha as [Hc Hr].
      destruct c as [p|q h]; [discriminate|].
      destruct (IH Hr (call env self (CallAsk q h))) as (I1 & I2 & I3).
      destruct (call_ask_payloads env self q h) as (P1 & P2 & P3).
      rewrite calls_cons, I1, I2, I3; simpl; auto. }
    destruct H as (H1 & H2 & H3).
    unfold get_data_summary, create_visualizations, context_of.
    rewrite H1, H2, H3; repeat split.
  - revert self; induction cs as [|c cs IH]; intros self Hl; [reflexivity|].
    simpl in Hl; apply andb_prop in Hl as [Hc Hr].
    destruct c as [p|q h]; [|discriminate].
    rewrite calls_cons, (IH _ Hr); simpl.
    apply load_document_frame.
Qed.

Lemma calls_frame_witness :
  get_data_summary
    (calls (Sample.env Sample.echo)
       (set_data Sample.fresh Sample.sales)
       [CallAsk "What is X?" None; CallAsk "And Y?" (Some [])])
  = get_data_summary (set_data Sample.fresh Sample.sales).
Proof.
  apply (proj1 (calls_frame (Sample.env Sample.echo)
                  [CallAsk "What is X?" None; CallAsk "And Y?" (Some [])]
                  (set_data Sample.fresh Sample.sales))).
  reflexivity.
Defined.

(** * Properties of the caller *)

(** ** The history tab *)

Lemma nth_error_combine (A B : Type) (l : list A) (l' : list B) (i : nat)
    (a : A) (b : B) :
  nth_error l i = Some a -> nth_error l' i = Some b ->
  nth_error (combine l l') i = Some (a, b).
Proof.
  revert l' i; induction l as [|x l IH]; intros [|y l'] [|i]; simpl;
    try discriminate.
  - intros [= ->] [= ->]; reflexivity.
  - apply IH.
Qed.

Lemma question_preview_length (question : string) :
  String.length (App.question_preview question) <= 63.
Proof.
  unfold App.question_preview.
  destruct (60 <? String.length question)%nat eqn:E.
  - rewrite str_length_append, slice_to_length; cbn [String.length]; lia.
  - apply Nat.ltb_ge in E; lia.
Qed.

(** X18: the history tab shows one expander per record, newest first, and
    numbers them in asking order: the record of the [k]-th question asked
    (counting from 1) is labelled "Q[k]: " followed by the question, cut to
    its first 60 characters and "..." when it is longer than 60; the label's
    question part never exceeds 63 characters. *)
Theorem history_expanders_labels (history : list AnalysisRecord) (k : nat)
    (item : AnalysisRecord) :
  nth_error history k = Some item ->
  List.length (App.history_expanders history) = List.length history
  /\ nth_error (App.history_expanders history) (List.length history - S k)
     = Some ("Q" ++ str_of_nat (S k) ++ ": "
             ++ App.question_preview (rec_question item), item)
  /\ String.length (App.question_preview (rec_question item)) <= 63
  /\ (String.length (rec_question item) <= 60 ->
      App.question_preview (rec_question item) = rec_question item)
  /\ (60 < String.length (rec_question item) ->
      App.question_preview (rec_question item)
      = slice_to 60 (rec_question item) ++ "...").
Proof.
  intros Hk.
  assert (Hlt : k < List.length history)
    by (apply nth_error_Some; rewrite Hk; discriminate).
  unfold App.history_expanders.
  split; [|split; [|split; [|split]]].
  - rewrite length_map, length_combine, length_seq, length_rev; lia.
  - rewrite nth_error_map.
    rewrite (@nth_error_combine _ _ _ _ (List.length history - S k)
               (List.length history - S k) item).
    + simpl.
      replace (List.length history - (List.length history - S k)) with (S k)
        by lia.
      reflexivity.
    + rewrite nth_error_seq.
      destruct (Nat.ltb_spec (List.length history - S k)
                  (List.length history)); [reflexivity|lia].
    + rewrite nth_error_rev.
      destruct (Nat.ltb_spec (List.length history - S k)
                  (List.length history)); [|lia].
      replace (List.length history - S (List.length history - S k)) with k
        by lia.
      exact Hk.
  - apply question_preview_length.
  - intros Hl; unfold App.question_preview.
    destruct (Nat.ltb_spec 60 (String.length (rec_question item)));
      [lia|reflexivity].
  - intros Hl; unfold App.question_preview.
    destruct (Nat.ltb_spec 60 (String.length (rec_question item)));
      [reflexivity|lia].
Qed.

Lemma history_expanders_labels_witness :
  nth_error
    (App.history_expanders
       [mkRecord "first" "a" ""; mkRecord "second" "b" ""]) 1
  = Some ("Q1: first", mkRecord "first" "a" "").
Proof.
  apply (proj1 (proj2 (@history_expanders_labels
                         [mkRecord "first" "a" ""; mkRecord "second" "b" ""]
                         0 (mkRecord "first" "a" "") eq_refl))).
Defined.

(** ** The chat tab *)

(** X19: one run of the chat tab with a non-empty prompt sends the agent a
    request whose messages are the session's messages, then the prompt as a
    user turn, then the prompt again inside the final "Context: ...
    Question: ..." user turn.  If the service answers, the session gains
    the user turn and an assistant turn with the answer, and the history
    gains the record of that answer; if the service raises, the session
    still gains both turns, the assistant turn reading
    "No answer generated", and the agent is unchanged. *)
Theorem chat_step (env : Env) (agent : DataAnalystAgent)
    (messages : list ChatTurn) (prompt : string) :
  prompt <> "" ->
  let context := context_of env agent in
  let request :=
    mkRequest (model agent)
      (messages
       ++ [mkChatTurn "user" prompt;
           mkChatTurn "user"
             ("Context: " ++ context ++ nl ++ "Question: " ++ prompt)])%list
      1000 in
  match completions_create env request with
  | Ok response =>
      exists llm_answer,
        App.chat env agent messages prompt
        = ((messages
            ++ [mkChatTurn "user" prompt;
                mkChatTurn "assistant" llm_answer])%list,
           append_history agent (mkRecord prompt llm_answer context))
        /\ llm_answer <> ""
  | Raise _ =>
      App.chat env agent messages prompt
      = ((messages
          ++ [mkChatTurn "user" prompt;
              mkChatTurn "assistant" "No answer generated"])%list,
         agent)
  end.
Proof.
  intros Hp context request.
  unfold App.chat, App.safe_answer_question.
  destruct prompt as [|c prompt]; [contradiction|]; cbn [truthy].
  pose proof (answer_question_cases env agent (String c prompt)
                (Some (messages ++ [mkChatTurn "user" (String c prompt)])%list))
    as H.
  assert (E : request_of env agent (String c prompt)
                (Some (messages ++ [mkChatTurn "user" (String c prompt)])%list)
              = request).
  { unfold request_of; rewrite messages_of_history, <- app_assoc.
    reflexivity. }
  rewrite E in H.
  destruct (completions_create env request) as [response|e];
    cbv zeta in H; rewrite H; rewrite <- app_assoc; simpl app.
  - eexists; split; [reflexivity|].
    rewrite missing_content_answer.
    destruct (llm_answer_of response); simpl; discriminate.
  - reflexivity.
Qed.

Lemma chat_step_witness :
  App.chat (Sample.env Sample.unreachable) Sample.fresh [] "What is X?"
  = ([mkChatTurn "user" "What is X?";
      mkChatTurn "assistant" "No answer generated"],
     Sample.fresh).
Proof.
  apply (@chat_step (Sample.env Sample.unreachable) Sample.fresh []
           "What is X?").
  discriminate.
Defined.

Lemma chat_shape (env : Env) (agent : DataAnalystAgent)
    (messages : list ChatTurn) (prompt : string) :
  fst (App.chat env agent messages prompt)
  = if truthy prompt
    then (messages
          ++ [mkChatTurn "user" prompt;
              mkChatTurn "assistant"
                (App.shown_answer
                   (fst (answer_question env agent prompt
                           (Some (messages
                                  ++ [mkChatTurn "user" prompt])%list))))])%list
    else messages.
Proof.
  unfold App.chat, App.safe_answer_question.
  destruct (truthy prompt); [|reflexivity].
  destruct (answer_question env agent prompt
              (Some (messages ++ [mkChatTurn "user" prompt])%list));
    simpl; rewrite <- app_assoc; reflexivity.
Qed.

Lemma alternates_app (messages : list ChatTurn) (u a : ChatTurn) :
  App.alternates messages = true ->
  role u = "user" -> role a = "assistant" ->
  App.alternates (messages ++ [u; a]) = true.
Proof.
  intros Hm Hu Ha.
  assert (H : forall n ms, List.length ms <= n ->
                App.alternates ms = true ->
                App.alternates (ms ++ [u; a]) = true).
  { induction n as [|n IH]; intros ms Hl Hms.
    - destruct ms; [|simpl in Hl; lia].
      simpl; rewrite Hu, Ha; reflexivity.
    - destruct ms as [|x [|y ms]]; simpl in *.
      + rewrite Hu, Ha; reflexivity.
      + discriminate.
      + apply andb_prop in Hms as [Hxy Hms]; rewrite Hxy; simpl.
        apply IH; [lia|exact Hms]. }
  apply (H (List.length messages)); auto.
Qed.

(** X20: the messages of the session keep alternating between a user turn
    and an assistant turn: if they do before a series of prompts they do
    after it, whatever the service returned; they grow by two turns for
    each non-empty prompt and by nothing for an empty one. *)
Theorem chats_alternate (env : Env) (prompts : list string)
    (agent : DataAnalystAgent) (messages : list ChatTurn) :
  App.alternates messages = true ->
  App.alternates (fst (App.chats env agent messages prompts)) = true
  /\ List.length (fst (App.chats env agent messages prompts))
     = List.length messages + 2 * List.length (filter truthy prompts).
Proof.
  revert agent messages; induction prompts as [|p prompts IH];
    intros agent messages Hm; simpl.
  - split; [exact Hm|lia].
  - pose proof (chat_shape env agent messages p) as Hs.
    destruct (App.chat env agent messages p) as [messages' agent'].
    simpl in Hs; subst messages'.
    destruct (truthy p).
    + edestruct IH as [I1 I2];
        [|split; [exact I1|rewrite I2, length_app; simpl; lia]].
      apply alternates_app; auto.
    + apply IH; exact Hm.
Qed.

Lemma chats_alternate_witness :
  List.length
    (fst (App.chats (Sample.env Sample.echo) Sample.fresh []
            ["What is X?"; ""; "And Y?"]))
  = 4.
Proof.
  apply (proj2 (@chats_alternate (Sample.env Sample.echo)
                  ["What is X?"; ""; "And Y?"] Sample.fresh [] eq_refl)).
Defined.

(** ** The summary tab *)

Lemma list_sum_map_add (A : Type) (f g : A -> nat) (l : list A) :
  list_sum (map (fun x => f x + g x) l)
  = list_sum (map f l) + list_sum (map g l).
Proof. induction l as [|x l IH]; simpl; [reflexivity|rewrite IH; lia]. Qed.

Lemma null_count_sum (j : nat) (rs : list (list Cell)) :
  null_count j rs
  = list_sum (map (fun r => if is_null (nth j r None) then 1 else 0) rs).
Proof.
  unfold null_count; induction rs as [|r rs IH]; [reflexivity|].
  cbn [filter map list_sum fold_right].
  match goal with
  | |- context [if ?b then _ else _] => destruct b
  end; cbn [List.length]; rewrite IH; reflexivity.
Qed.

Lemma null_counts_sum (cols : list Column) (rs : list (list Cell)) (j : nat) :
  list_sum (map snd (null_counts j cols rs))
  = list_sum
      (map (fun r =>
              List.length
                (filter (fun k => is_null (nth k r None))
                   (seq j (List.length cols))))
         rs).
Proof.
  revert j; induction cols as [|c cols IH]; intros j; simpl.
  - induction rs as [|r rs IHr]; simpl; [reflexivity|exact IHr].
  - rewrite IH, null_count_sum, <- list_sum_map_add.
    f_equal; apply map_ext; intros r.
    cbn [filter]; match goal with
                  | |- context [if ?b then _ else _] => destruct b
                  end; reflexivity.
Qed.

Lemma null_positions (r : list Cell) (j : nat) (pre : list Cell) :
  List.length pre = j ->
  List.length
    (filter (fun k => is_null (nth k (pre ++ r)%list None))
       (seq j (List.length r)))
  = List.length (filter is_null r).
Proof.
  revert j pre; induction r as [|x r IH]; intros j pre Hj; simpl;
    [reflexivity|].
  rewrite <- Hj at 1; rewrite nth_middle.
  specialize (IH (S j) (pre ++ [x])%list).
  rewrite <- app_assoc in IH; simpl in IH.
  rewrite length_app in IH; simpl in IH.
  destruct x as [v|]; simpl; rewrite IH by lia; reflexivity.
Qed.

Lemma numeric_count_dtypes (cols : list Column) :
  App.numeric_count
    (map (fun c => (col_name c, dtype_str (col_dtype c))) cols)
  = List.length
      (filter (fun c => App.contains "int" (dtype_str (col_dtype c))
                        || App.contains "float" (dtype_str (col_dtype c)))
         cols).
Proof.
  unfold App.numeric_count; induction cols as [|c cols IH];
    [reflexivity|].
  cbn [map filter snd].
  destruct (App.contains "int" (dtype_str (col_dtype c))
            || App.contains "float" (dtype_str (col_dtype c)));
    cbn [List.length]; rewrite IH; reflexivity.
Qed.

Lemma timedelta_columns (cols : list Column) :
  Forall (fun c => col_dtype c = Timedelta64) cols ->
  filter (fun c => App.contains "int" (dtype_str (col_dtype c))
                   || App.contains "float" (dtype_str (col_dtype c)))
    cols = []
  /\ filter (fun c => is_number (col_dtype c)) cols = cols.
Proof.
  induction 1 as [|c cols Hc _ [IH1 IH2]]; [split; reflexivity|].
  cbn [filter]; rewrite Hc, IH1, IH2; split; reflexivity.
Qed.

(** X21: the metrics of the summary tab against the table, for a table
    with distinct column labels.  "Numeric" counts the columns whose dtype
    name contains "int" or "float".  That is the number of columns that
    [create_visualizations] treats as numeric when, on every column, the
    name test agrees with the selection of numbers; it is not in general:
    for a table of duration columns "Numeric" is 0 while every column is
    numeric for [create_visualizations].  When every row has one cell per
    column, "Missing", the sum of the per-column counts, is the number of
    missing cells of the table. *)
Theorem summary_metrics (self : DataAnalystAgent) (df : DataFrame) :
  data self = Some df ->
  NoDup (map col_name (columns df)) ->
  exists shape missing_values dtypes sample_data,
    get_data_summary self
    = SummaryStructured shape missing_values dtypes sample_data
    /\ App.numeric_count dtypes
       = List.length
           (filter (fun c => App.contains "int" (dtype_str (col_dtype c))
                             || App.contains "float"
                                  (dtype_str (col_dtype c)))
              (columns df))
    /\ (Forall (fun c => is_number (col_dtype c)
                         = App.contains "int" (dtype_str (col_dtype c))
                           || App.contains "float" (dtype_str (col_dtype c)))
          (columns df) ->
        App.numeric_count dtypes = List.length (numeric_columns df))
    /\ (Forall (fun c => col_dtype c = Timedelta64) (columns df) ->
        App.numeric_count dtypes = 0
        /\ List.length (numeric_columns df) = List.length (columns df))
    /\ (Forall (fun r => List.length r = List.length (columns df)) (rows df) ->
        App.missing_count missing_values
        = list_sum (map (fun r => List.length (filter is_null r)) (rows df))).
Proof.
  intros Hd _; unfold get_data_summary; rewrite Hd.
  eexists _, _, _, _; split; [reflexivity|].
  unfold dtypes_str, numeric_columns; rewrite numeric_count_dtypes.
  split; [reflexivity|split; [|split]].
  - intros Ha; rewrite length_map; f_equal.
    apply filter_ext_in; intros c Hc.
    rewrite Forall_forall in Ha; symmetry; apply Ha; exact Hc.
  - intros Ht; destruct (timedelta_columns Ht) as [E1 E2].
    rewrite E1, length_map, E2; split; reflexivity.
  - intros Hr; unfold App.missing_count, isnull_sum.
    rewrite null_counts_sum; f_equal.
    apply map_ext_in; intros r Hin.
    rewrite Forall_forall in Hr; rewrite <- (Hr r Hin).
    apply (@null_positions r 0 [] eq_refl).
Qed.

Lemma summary_metrics_witness :
  exists shape missing_values dtypes sample_data,
    get_data_summary (set_data Sample.fresh Sample.sales)
    = SummaryStructured shape missing_values dtypes sample_data
    /\ App.numeric_count dtypes = 2
    /\ App.missing_count missing_values = 2.
Proof.
  destruct (@summary_metrics (set_data Sample.fresh Sample.sales)
              Sample.sales eq_refl)
    as (s & m & d & sd & H1 & _ & H2 & _ & H3).
  - repeat constructor; simpl; intuition discriminate.
  - exists s, m, d, sd; split; [exact H1|split].
    + rewrite H2; [reflexivity|repeat constructor].
    + rewrite H3; [reflexivity|repeat constructor].
Defined.

(** ** The upload *)

Lemma contains_char (c : ascii) (s : string) :
  App.contains (String c "") s = has_char c s.
Proof.
  induction s as [|d s IH]; simpl; [reflexivity|].
  rewrite IH.
  destruct (ascii_dec c d) as [->|Hn].
  - rewrite Ascii.eqb_refl; destruct s; reflexivity.
  - assert (E : Ascii.eqb d c = false)
      by (apply Ascii.eqb_neq; congruence).
    rewrite E; reflexivity.
Qed.

Lemma has_char_append (c : ascii) (a b : string) :
  has_char c (a ++ b) = has_char c a || has_char c b.
Proof.
  induction a as [|d a IH]; simpl; [reflexivity|].
  rewrite IH, orb_assoc; reflexivity.
Qed.

Lemma rfind_from_append (c : ascii) (a b : string) (i last : Z) :
  rfind_from c (a ++ b) i last
  = rfind_from c b (i + Z.of_nat (String.length a)) (rfind_from c a i last).
Proof.
  revert i last; induction a as [|d a IH]; intros i last.
  - simpl; rewrite Z.add_0_r; reflexivity.
  - cbn [append rfind_from String.length]; rewrite IH.
    f_equal; lia.
Qed.

Lemma rfind_from_absent (c : ascii) (s : string) (i last : Z) :
  has_char c s = false -> rfind_from c s i last = last.
Proof.
  revert i last; induction s as [|d s IH]; intros i last; simpl;
    [reflexivity|].
  intros H; apply orb_false_elim in H as [Hd Hs].
  rewrite Hd; apply IH; exact Hs.
Qed.

Lemma get_append_head (a : string) (c : ascii) (b : string) :
  String.get (String.length a) (a ++ String c b) = Some c.
Proof. induction a as [|d a IH]; simpl; [reflexivity|exact IH]. Qed.

Lemma slice_from_append (a b : string) :
  slice_from (String.length a) (a ++ b) = b.
Proof.
  induction a as [|d a IH]; simpl; [destruct b; reflexivity|exact IH].
Qed.

(** The extension of a path made of a directory part that is empty or ends
    with a slash, a file name that starts with "tmp" and has no slash, a dot
    and a suffix without dot or slash. *)
Lemma splitext_tmp (D random ext : string) :
  rfind "/"%char D = (Z.of_nat (String.length D) - 1)%Z ->
  has_char "/"%char random = false ->
  has_char "/"%char ext = false ->
  has_char "."%char ext = false ->
  snd (splitext (D ++ "tmp" ++ random ++ "." ++ ext)) = "." ++ ext.
Proof.
  intros HD Hr Hs Hd.
  set (P := D ++ "tmp" ++ random).
  assert (EP : D ++ "tmp" ++ random ++ "." ++ ext = P ++ "." ++ ext).
  { unfold P; rewrite !str_append_assoc; reflexivity. }
  assert (LP : String.length P = String.length D + 3 + String.length random).
  { unfold P; rewrite !str_length_append; simpl; lia. }
  assert (Hsep : rfind "/"%char (P ++ "." ++ ext)
                 = (Z.of_nat (String.length D) - 1)%Z).
  { rewrite <- EP; unfold rfind in *.
    rewrite rfind_from_append, HD.
    apply rfind_from_absent.
    rewrite !has_char_append, Hr, Hs; reflexivity. }
  assert (Hdot : rfind "."%char (P ++ "." ++ ext)
                 = Z.of_nat (String.length P)).
  { unfold rfind; rewrite rfind_from_append.
    cbn [append rfind_from]; rewrite Ascii.eqb_refl.
    rewrite rfind_from_absent by exact Hd; lia. }
  rewrite EP; unfold splitext; rewrite Hsep, Hdot.
  replace (Z.of_nat (String.length P) >? Z.of_nat (String.length D) - 1)%Z
    with true by (symmetry; apply Z.gtb_lt; lia).
  replace (Z.to_nat (Z.of_nat (String.length D) - 1 + 1))
    with (String.length D) by lia.
  replace (Z.to_nat (Z.of_nat (String.length P)
                     - (Z.of_nat (String.length D) - 1 + 1)))
    with (S (2 + String.length random)) by lia.
  rewrite Nat2Z.id.
  cbn [has_non_dot].
  rewrite <- EP at 1.
  change (D ++ "tmp" ++ random ++ "." ++ ext)
    with (D ++ String "t" ("mp" ++ random ++ "." ++ ext)).
  rewrite get_append_head; cbn [andb snd].
  apply slice_from_append.
Qed.

Lemma rfind_slash_end (a : string) :
  rfind "/"%char (a ++ "/") = (Z.of_nat (String.length (a ++ "/")) - 1)%Z.
Proof.
  unfold rfind; rewrite rfind_from_append; cbn [rfind_from].
  rewrite Ascii.eqb_refl, str_length_append; simpl; lia.
Qed.

Lemma last_char_split (a : string) (c : ascii) :
  a <> "" -> last (list_ascii_of_string a) " "%char = c ->
  exists a', a = a' ++ String c "".
Proof.
  induction a as [|d a IH]; [contradiction|]; intros _ Hl.
  destruct a as [|e a].
  - simpl in Hl; subst d; exists ""; reflexivity.
  - destruct IH as [a' Ha]; [discriminate|exact Hl|].
    exists (String d a'); simpl; rewrite <- Ha; reflexivity.
Qed.

Lemma path_join_tmp (dir rest : string) :
  exists D,
    App.path_join dir ("tmp" ++ rest) = D ++ "tmp" ++ rest
    /\ rfind "/"%char D = (Z.of_nat (String.length D) - 1)%Z.
Proof.
  unfold App.path_join; cbn [prefix append].
  destruct dir as [|d dir].
  - exists ""; split; reflexivity.
  - cbn [truthy negb orb].
    destruct (Ascii.eqb_spec
                (last (list_ascii_of_string (String d dir)) " "%char)
                "/"%char) as [E|E].
    + exists (String d dir); split; [reflexivity|].
      destruct (@last_char_split (String d dir) "/"%char) as [a' Ha];
        [discriminate|exact E|].
      rewrite Ha; apply rfind_slash_end.
    + exists (String d dir ++ "/"); split.
      * rewrite str_append_assoc; reflexivity.
      * apply rfind_slash_end.
Qed.

Lemma split_on_from_nonempty (sep : ascii) (s part : string) :
  App.split_on_from sep part s <> [].
Proof.
  revert part; induction s as [|c s IH]; intros part; simpl; [discriminate|].
  destruct (Ascii.eqb c sep); [discriminate|apply IH].
Qed.

Lemma split_on_last (sep : ascii) (s part : string) :
  has_char sep part = false ->
  has_char sep (last (App.split_on_from sep part s) "") = false.
Proof.
  revert part; induction s as [|c s IH]; intros part Hp; simpl;
    [exact Hp|].
  destruct (Ascii.eqb c sep) eqn:E.
  - specialize (IH "" eq_refl).
    pose proof (@split_on_from_nonempty sep s "") as Hne.
    destruct (App.split_on_from sep "" s); [contradiction|exact IH].
  - apply IH; rewrite has_char_append, Hp; simpl; rewrite E; reflexivity.
Qed.

Lemma split_on_other (sep c : ascii) (s part : string) :
  has_char c part = false -> has_char c s = false ->
  has_char c (last (App.split_on_from sep part s) "") = false.
Proof.
  revert part; induction s as [|d s IH]; intros part Hp Hs; simpl;
    [exact Hp|].
  simpl in Hs; apply orb_false_elim in Hs as [Hd Hs].
  destruct (Ascii.eqb d sep) eqn:E.
  - specialize (IH "" eq_refl Hs).
    pose proof (@split_on_from_nonempty sep s "") as Hne.
    destruct (App.split_on_from sep "" s); [contradiction|exact IH].
  - apply IH; [|exact Hs].
    rewrite has_char_append, Hp; simpl; rewrite Hd; reflexivity.
Qed.

Lemma file_extension_chars (name : string) :
  has_char "/"%char name = false ->
  has_char "."%char (App.file_extension name) = false
  /\ has_char "/"%char (App.file_extension name) = false.
Proof.
  intros Hn; unfold App.file_extension.
  destruct (App.contains "." name); [|split; reflexivity].
  split.
  - apply split_on_last; reflexivity.
  - apply split_on_other; [reflexivity|exact Hn].
Qed.

Lemma tmp_file_path_extension (dir random name : string) :
  has_char "/"%char random = false ->
  has_char "/"%char name = false ->
  extension (App.tmp_file_path dir random name)
  = "." ++ lower (App.file_extension name).
Proof.
  intros Hr Hn.
  destruct (file_extension_chars name Hn) as [Hd Hs].
  unfold extension, App.tmp_file_path, App.temp_name.
  destruct (path_join_tmp dir (random ++ "." ++ App.file_extension name))
    as (D & -> & HD).
  rewrite (splitext_tmp D random (App.file_extension name) HD Hr Hs Hd).
  reflexivity.
Qed.

(** X22: the path that the upload hands to [load_document] is dispatched
    on the part of the uploaded file's name after its last dot, in lower
    case, whatever the temporary directory and the random part of the
    temporary name.  So an upload whose name has no dot, or ends in one of
    the types xls, doc or bmp that the uploader accepts, is refused as
    'Unsupported file type.' and leaves the agent unchanged; xls, doc and
    bmp are the only accepted types that are refused. *)
Theorem upload_dispatch (env : Env) (self : DataAnalystAgent)
    (dir random name : string) :
  App.contains "/" random = false ->
  App.contains "/" name = false ->
  extension (App.tmp_file_path dir random name)
  = "." ++ lower (App.file_extension name)
  /\ (App.contains "." name = false
      \/ In (lower (App.file_extension name)) ["xls"; "doc"; "bmp"] ->
      load_document env self (App.tmp_file_path dir random name)
      = (mkLoadResult "error" "Unsupported file type.", self))
  /\ (forall t, In t App.uploader_types ->
      (variant_of_ext ("." ++ t) = None <-> In t ["xls"; "doc"; "bmp"])).
Proof.
  intros Hr Hn; rewrite contains_char in Hr, Hn.
  pose proof (tmp_file_path_extension dir random name Hr Hn) as E.
  split; [exact E|split].
  - intros H; rewrite load_document_parse, E.
    assert (Hl : In (lower (App.file_extension name))
                   ["tmp"; "xls"; "doc"; "bmp"]).
    { destruct H as [H|H].
      - unfold App.file_extension; rewrite H; left; reflexivity.
      - right; exact H. }
    simpl in Hl.
    destruct Hl as [<-|[<-|[<-|[<-|[]]]]]; reflexivity.
  - intros t Ht; simpl in Ht.
    repeat (destruct Ht as [<-|Ht];
            [vm_compute; intuition (discriminate || auto)|]).
    contradiction.
Qed.

Lemma upload_dispatch_witness :
  load_document (Sample.env Sample.echo) Sample.fresh
    (App.tmp_file_path "/tmp" "k3_x9abq" "Report.2024.XLS")
  = (mkLoadResult "error" "Unsupported file type.", Sample.fresh).
Proof.
  apply (proj1 (proj2 (@upload_dispatch (Sample.env Sample.echo) Sample.fresh
                         "/tmp" "k3_x9abq" "Report.2024.XLS"
                         eq_refl eq_refl))).
  right; left; reflexivity.
Defined.
